(** * notify_teams: the SNS-to-Teams notification handler

    A shallow embedding of [functions/notify_teams.py] and the properties of
    its classification, card formatting and delivery.

    Conventions of the embedding.
    - A Python [str] is a [string]; one [ascii] stands for one code point, so
      the strings of the model are those over U+0000..U+00FF.
    - A Python value that came out of [json.loads] is a [pyval].  A [dict] is
      an association list in insertion order, looked up by its first match.
    - A Python [float] is carried by its [repr] text.
    - A computation that logs, posts and may raise is a value of [M]: the
      list of effects it performed, and either the exception it raised or its
      result.
    - [json.loads], [urlopen] and the environment variable read at import
      time belong to the interpreter and the network; the handler takes them
      as the variables of a section. *)

From Stdlib Require Import String Ascii List ZArith Bool Lia DecimalString.
Import ListNotations.
Local Open Scope list_scope.
Local Open Scope string_scope.

(** ** Strings *)

Module Str.

Definition code (c : ascii) : nat := nat_of_ascii c.

Definition between (lo hi : nat) (c : ascii) : bool :=
  (lo <=? code c)%nat && (code c <=? hi)%nat.

(** [str.lower()] on the code points of the model: the upper-case letters
    are A..Z and U+00C0..U+00DE without the multiplication sign U+00D7;
    each has its lower-case form 32 code points above. *)
Definition lower_char (c : ascii) : ascii :=
  if between 65 90 c
     || (between 192 222 c && negb (code c =? 215)%nat)
  then ascii_of_nat (code c + 32) else c.

Fixpoint lower (s : string) : string :=
  match s with
  | EmptyString => EmptyString
  | String c r => String (lower_char c) (lower r)
  end.

(** [c in s] for a one-character [c]. *)
Fixpoint has_char (c : ascii) (s : string) : bool :=
  match s with
  | EmptyString => false
  | String d r => Ascii.eqb c d || has_char c r
  end.

(** [sub in s]: [sub] occurs in [s] as a contiguous run. *)
Fixpoint contains (sub s : string) : bool :=
  String.prefix sub s
  || match s with
     | EmptyString => false
     | String _ r => contains sub r
     end.

(** [s.split(c)] for a one-character separator: the maximal runs between
    the occurrences of [c]; never the empty list. *)
Fixpoint split (c : ascii) (s : string) : list string :=
  match s with
  | EmptyString => [EmptyString]
  | String d r =>
      if Ascii.eqb d c then EmptyString :: split c r
      else match split c r with
           | [] => [String d EmptyString]
           | x :: xs => String d x :: xs
           end
  end.

(** Decimal rendering of an integer, as [str(n)] and ["%d" % n] give it. *)
Definition of_Z (z : Z) : string := NilZero.string_of_int (Z.to_int z).

Definition hex_digit (n : nat) : ascii :=
  if (n <? 10)%nat then ascii_of_nat (48 + n) else ascii_of_nat (87 + n).

(** Two lower-case hexadecimal digits of a code point. *)
Definition hex2 (c : ascii) : string :=
  String (hex_digit (code c / 16)) (String (hex_digit (code c mod 16)) "").

Fixpoint join (sep : string) (l : list string) : string :=
  match l with
  | [] => ""
  | [x] => x
  | x :: r => x ++ sep ++ join sep r
  end.

Fixpoint repeat_str (s : string) (n : nat) : string :=
  match n with
  | O => ""
  | S k => s ++ repeat_str s k
  end.

End Str.

(** ** Python values *)

#[warning="-register-all"]
Inductive pyval : Type :=
| PNone
| PBool (b : bool)
| PInt (z : Z)
| PFloat (repr : string)
| PStr (s : string)
| PList (items : list pyval)
| PDict (items : list (string * pyval)).

Inductive exn : Type :=
| JSONDecodeError
| KeyError (key : pyval)
| IndexError
| TypeError
| AttributeError
| ConnectionResetError.

Inductive result (A : Type) : Type :=
| Ok (a : A)
| Raise (e : exn).
Arguments Ok {A} a.
Arguments Raise {A} e.

Module Py.

Fixpoint assoc {A : Type} (k : string) (d : list (string * A)) : option A :=
  match d with
  | [] => None
  | (k', v) :: r => if String.eqb k k' then Some v else assoc k r
  end.

Definition is_str (s : string) (v : pyval) : bool :=
  match v with
  | PStr t => String.eqb s t
  | _ => false
  end.

(** [v == s] for a string [s]: only an equal string compares equal. *)
Definition eq_str (v : pyval) (s : string) : bool := is_str s v.

(** [s in v]. A dict is searched by key, a list by element, a string for a
    substring; the other types are not containers. *)
Definition contains (s : string) (v : pyval) : result bool :=
  match v with
  | PDict d => Ok (match assoc s d with Some _ => true | None => false end)
  | PList l => Ok (existsb (is_str s) l)
  | PStr t => Ok (Str.contains s t)
  | _ => Raise TypeError
  end.

(** [v[k]] for a string key [k]. *)
Definition getitem (v : pyval) (k : string) : result pyval :=
  match v with
  | PDict d => match assoc k d with
               | Some x => Ok x
               | None => Raise (KeyError (PStr k))
               end
  | _ => Raise TypeError
  end.

(** [v[0]]. The keys of a decoded dict are strings, so 0 is never one. *)
Definition getitem0 (v : pyval) : result pyval :=
  match v with
  | PList (x :: _) => Ok x
  | PList [] => Raise IndexError
  | PStr (String c _) => Ok (PStr (String c ""))
  | PStr EmptyString => Raise IndexError
  | PDict _ => Raise (KeyError (PInt 0))
  | _ => Raise TypeError
  end.

(** [v.get(k, dflt)]: only a dict has the method. *)
Definition get (v : pyval) (k : string) (dflt : pyval) : result pyval :=
  match v with
  | PDict d => Ok (match assoc k d with Some x => x | None => dflt end)
  | _ => Raise AttributeError
  end.

(** [hash(v)] succeeds on everything but lists and dicts. *)
Definition hashable (v : pyval) : bool :=
  match v with
  | PList _ | PDict _ => false
  | _ => true
  end.

End Py.

(** ** Rendering values: [str], [repr] and [json.dumps] *)

Module Render.

(** A code point [repr] shows as it is: the printable ASCII range and the
    printable part of U+00A1..U+00FF (the soft hyphen U+00AD is not). *)
Definition printable (c : ascii) : bool :=
  Str.between 32 126 c
  || (Str.between 161 255 c && negb (Str.code c =? 173)%nat).

Definition repr_char (quote c : ascii) : string :=
  if Ascii.eqb c quote || Ascii.eqb c "\"%char then String "\" (String c "")
  else if (Str.code c =? 9)%nat then "\t"
  else if (Str.code c =? 10)%nat then "\n"
  else if (Str.code c =? 13)%nat then "\r"
  else if printable c then String c ""
  else "\x" ++ Str.hex2 c.

Fixpoint repr_chars (quote : ascii) (s : string) : string :=
  match s with
  | EmptyString => ""
  | String c r => repr_char quote c ++ repr_chars quote r
  end.

(** [repr(s)]: single quotes, unless [s] has a single quote and no double
    quote. *)
Definition repr_str (s : string) : string :=
  let quote :=
    if Str.has_char "'"%char s && negb (Str.has_char "034"%char s)
    then "034"%char else "'"%char in
  String quote (repr_chars quote s) ++ String quote "".

Fixpoint repr (v : pyval) : string :=
  match v with
  | PNone => "None"
  | PBool true => "True"
  | PBool false => "False"
  | PInt z => Str.of_Z z
  | PFloat r => r
  | PStr s => repr_str s
  | PList l => "[" ++ Str.join ", " (map repr l) ++ "]"
  | PDict d =>
      "{" ++ Str.join ", "
               (map (fun kv : string * pyval => let (k, x) := kv in
                               repr_str k ++ ": " ++ repr x) d)
          ++ "}"
  end.

(** [str(v)], which is what an f-string field [{v}] and a [%s] insert. *)
Definition str (v : pyval) : string :=
  match v with
  | PStr s => s
  | _ => repr v
  end.

(** One character of a JSON string literal under [ensure_ascii]. *)
Definition json_char (c : ascii) : string :=
  if Ascii.eqb c "034"%char then String "\" (String "034" "")
  else if Ascii.eqb c "\"%char then "\\"
  else if (Str.code c =? 10)%nat then "\n"
  else if (Str.code c =? 13)%nat then "\r"
  else if (Str.code c =? 9)%nat then "\t"
  else if (Str.code c =? 8)%nat then "\b"
  else if (Str.code c =? 12)%nat then "\f"
  else if Str.between 32 126 c then String c ""
  else "\u00" ++ Str.hex2 c.

Fixpoint json_chars (s : string) : string :=
  match s with
  | EmptyString => ""
  | String c r => json_char c ++ json_chars r
  end.

Definition json_str (s : string) : string :=
  String "034" (json_chars s) ++ String "034" "".

Definition json_float (r : string) : string :=
  if String.eqb r "nan" then "NaN"
  else if String.eqb r "inf" then "Infinity"
  else if String.eqb r "-inf" then "-Infinity"
  else r.

(** The line break and margin that open level [lvl] of an indented
    document; nothing when [indent] is [None]. *)
Definition newline_indent (indent : option nat) (lvl : nat) : string :=
  match indent with
  | Some n => String (ascii_of_nat 10) (Str.repeat_str " " (n * lvl))
  | None => ""
  end.

Definition item_separator (indent : option nat) : string :=
  match indent with Some _ => "," | None => ", " end.

Fixpoint encode (indent : option nat) (lvl : nat) (v : pyval) : string :=
  match v with
  | PNone => "null"
  | PBool true => "true"
  | PBool false => "false"
  | PInt z => Str.of_Z z
  | PFloat r => json_float r
  | PStr s => json_str s
  | PList [] => "[]"
  | PList l =>
      "[" ++ newline_indent indent (S lvl)
          ++ Str.join (item_separator indent ++ newline_indent indent (S lvl))
               (map (encode indent (S lvl)) l)
          ++ newline_indent indent lvl ++ "]"
  | PDict [] => "{}"
  | PDict d =>
      "{" ++ newline_indent indent (S lvl)
          ++ Str.join (item_separator indent ++ newline_indent indent (S lvl))
               (map (fun kv : string * pyval => let (k, x) := kv in
                               json_str k ++ ": " ++ encode indent (S lvl) x)
                    d)
          ++ newline_indent indent lvl ++ "}"
  end.

(** [json.dumps(v)] and [json.dumps(v, indent=n)]. *)
Definition dumps (v : pyval) : string := encode None 0 v.
Definition dumps_indent (n : nat) (v : pyval) : string := encode (Some n) 0 v.

End Render.

(** ** Effects *)

Inductive level : Type := INFO | ERROR.

(** The request built at lines 132-136: [Request(url, data=..., headers=...)]. *)
Record request : Type := Request {
  full_url : string;
  data : string;
  headers : list (string * string)
}.

(** What the outside world sees of a run: the lines handed to the logger and
    the calls of [urlopen]. *)
Inductive effect : Type :=
| Log (lvl : level) (msg : string)
| Urlopen (req : request).

(** The exceptions of [urllib.error], next to the built-in ones. *)
Inductive failure : Type :=
| Builtin (e : exn)
| HTTPError (code : Z) (reason : string)
| URLError (reason : string).

(** A computation: the effects performed so far, and how it ended. *)
Inductive outcome (A : Type) : Type :=
| Returned (a : A)
| Raised (f : failure).
Arguments Returned {A} a.
Arguments Raised {A} f.

Definition M (A : Type) : Type := list effect * outcome A.

Definition ret {A : Type} (a : A) : M A := ([], Returned a).

Definition bind {A B : Type} (m : M A) (k : A -> M B) : M B :=
  match m with
  | (t, Returned a) => let (t', r) := k a in ((t ++ t')%list, r)
  | (t, Raised f) => (t, Raised f)
  end.

Definition lift {A : Type} (r : result A) : M A :=
  match r with
  | Ok a => ([], Returned a)
  | Raise e => ([], Raised (Builtin e))
  end.

Definition emit (e : effect) : M unit := ([e], Returned tt).

Notation "x <- m ;; k" := (bind m (fun x => k))
  (at level 61, m at next level, right associativity).
Notation "m ;; k" := (bind m (fun _ => k))
  (at level 61, right associativity).

(** [logger.info(fmt, arg)] and [logger.error(fmt, args)], already formatted. *)
Definition logger_info (msg : string) : M unit := emit (Log INFO msg).
Definition logger_error (msg : string) : M unit := emit (Log ERROR msg).

Definition trace {A : Type} (m : M A) : list effect := fst m.
Definition ending {A : Type} (m : M A) : outcome A := snd m.

(** The [urlopen] calls of a trace, in order. *)
Fixpoint posts (t : list effect) : list request :=
  match t with
  | [] => []
  | Urlopen r :: t' => r :: posts t'
  | Log _ _ :: t' => posts t'
  end.

(** ** The card data and its formatters *)

(** The [data] dict of the handler: every branch builds it with exactly the
    keys colour, title and text, each a string. *)
Record card_data : Type := CardData {
  colour : string;
  title : string;
  text : string
}.

Inductive branch : Type := AlarmState | AuditEvent | Generic.

Definition newline : string := String (ascii_of_nat 10) "".

(** The [overrides] literal of lines 95-106, in source order. *)
Definition overrides : list ((string * string) * card_data) :=
  [ (("ALARM", "my-alarm-name"),
     {| colour := "Attention";
        title := "Red Alert - A bad thing happened.";
        text := "These are the specific details of the bad thing." |});
    (("OK", "my-alarm-name"),
     {| colour := "Good";
        title := "The bad thing stopped happening";
        text := "These are the specific details of how we know the bad thing stopped happening" |}) ].

(** Equality of the looked-up tuple with a key of the table: component by
    component, and a component equals a string only if it is that string. *)
Definition key_eqb (new_state alarm_name : pyval) (k : string * string) : bool :=
  Py.eq_str new_state (fst k) && Py.eq_str alarm_name (snd k).

Fixpoint table_find (new_state alarm_name : pyval)
    (table : list ((string * string) * card_data)) : option card_data :=
  match table with
  | [] => None
  | (k, e) :: r =>
      if key_eqb new_state alarm_name k then Some e
      else table_find new_state alarm_name r
  end.

(** [overrides.get((new_state, alarm_name), base_data)], line 108: the tuple
    is hashed first, which fails on a list or a dict. *)
Definition overrides_get (new_state alarm_name : pyval) (base_data : card_data)
  : result card_data :=
  if Py.hashable new_state && Py.hashable alarm_name then
    Ok (match table_find new_state alarm_name overrides with
        | Some e => e
        | None => base_data
        end)
  else Raise TypeError.

(** [v.lower()]: a method of strings only. *)
Definition py_lower (v : pyval) : result string :=
  match v with
  | PStr s => Ok (Str.lower s)
  | _ => Raise AttributeError
  end.

(** [v.split(sep)]: a method of strings only. *)
Definition py_split (v : pyval) (sep : ascii) : result (list string) :=
  match v with
  | PStr s => Ok (Str.split sep s)
  | _ => Raise AttributeError
  end.

(** [l[i]] on a list. *)
Definition py_index {A : Type} (l : list A) (i : nat) : result A :=
  match nth_error l i with
  | Some x => Ok x
  | None => Raise IndexError
  end.

(** ** The module [notify_teams] *)

Section NotifyTeams.

(** [os.environ['TEAMS_WEBHOOK_URL']], read once at import. *)
Variable HOOK_URL : string.

(** [json.loads] on a string. *)
Variable json_loads : string -> result pyval.

(** Lines 132-138 as seen from the handler: the request is built, sent, and
    the response read; it ends normally or with an exception. *)
Variable urlopen : request -> outcome unit.

(** [json.loads(v)]: [v] has to be a string. *)
Definition loads (v : pyval) : result pyval :=
  match v with
  | PStr s => json_loads s
  | _ => Raise TypeError
  end.

(** Lines 14-19. *)
Definition is_cloudwatch_alarm (message : pyval) : result bool :=
  match
    match loads message with
    | Ok message_json => Py.contains "AlarmName" message_json
    | Raise e => Raise e
    end
  with
  | Raise JSONDecodeError => Ok false
  | r => r
  end.

(** The title of line 28. *)
Definition cloudtrail_title (reason alarm_name : pyval) : result string :=
  match Py.contains ":" reason with
  | Raise e => Raise e
  | Ok true =>
      match py_split reason ":" with
      | Raise e => Raise e
      | Ok segments =>
          match py_index segments 6 with
          | Raise e => Raise e
          | Ok segment =>
              match py_index (Str.split " " segment) 0 with
              | Raise e => Raise e
              | Ok word =>
                  Ok ("Alert - " ++ word ++ " - Issue: " ++ Render.str alarm_name)
              end
          end
      end
  | Ok false => Ok ("Alert - Issue: " ++ Render.str alarm_name)
  end.

(** Lines 22-40. *)
Definition parse_cloudtrail_event (detail : pyval) : M card_data :=
  logger_info ("CloudTrail detail: " ++ Render.dumps detail) ;;
  alarm_name <- lift (Py.get detail "eventName" (PStr "UnknownEvent")) ;;
  reason <- lift (Py.get detail "errorMessage" (PStr "No error message provided")) ;;
  title <- lift (cloudtrail_title reason alarm_name) ;;
  event_type <- lift (Py.get detail "eventType" (PStr "Unknown")) ;;
  event_id <- lift (Py.get detail "eventID" (PStr "Unknown")) ;;
  event_time <- lift (Py.get detail "eventTime" (PStr "Unknown")) ;;
  ret {| colour := "Attention";
         title := title;
         text := Render.dumps_indent 2
                   (PDict [ ("Subject", alarm_name);
                            ("Type", event_type);
                            ("MessageId", event_id);
                            ("Message", reason);
                            ("Timestamp", event_time) ]) |}.

(** Lines 43-70. Every [data] the handler builds has its colour, so the
    default of [data.get] is never taken. *)
Definition build_adaptive_card (data : card_data) : pyval :=
  PDict
    [ ("type", PStr "message");
      ("attachments",
       PList
         [ PDict
             [ ("contentType", PStr "application/vnd.microsoft.card.adaptive");
               ("content",
                PDict
                  [ ("$schema", PStr "http://adaptivecards.io/schemas/adaptive-card.json");
                    ("type", PStr "AdaptiveCard");
                    ("version", PStr "1.5");
                    ("body",
                     PList
                       [ PDict [ ("type", PStr "TextBlock");
                                 ("text", PStr (title data));
                                 ("weight", PStr "Bolder");
                                 ("size", PStr "Medium");
                                 ("color", PStr (colour data)) ];
                         PDict [ ("type", PStr "TextBlock");
                                 ("text", PStr (text data));
                                 ("wrap", PBool true) ] ]) ]) ] ]) ].

(** The conditions of lines 81, 110 and 114, in that order. *)
Definition select_branch (message message_json : pyval) : result branch :=
  match Py.contains "AlarmName" message_json with
  | Raise e => Raise e
  | Ok has_name =>
      match (if has_name then is_cloudwatch_alarm message else Ok false) with
      | Raise e => Raise e
      | Ok true => Ok AlarmState
      | Ok false =>
          match Py.get message_json "detail-type" PNone with
          | Raise e => Raise e
          | Ok detail_type =>
              if Py.eq_str detail_type "AWS Service Event via CloudTrail"
              then Ok AuditEvent else Ok Generic
          end
      end
  end.

(** Lines 82-108. *)
Definition alarm_data (message_json : pyval) : M card_data :=
  alarm_name <- lift (Py.getitem message_json "AlarmName") ;;
  old_state <- lift (Py.getitem message_json "OldStateValue") ;;
  new_state <- lift (Py.getitem message_json "NewStateValue") ;;
  reason <- lift (Py.getitem message_json "NewStateReason") ;;
  logger_info ("CloudWatch Alarm: " ++ Render.dumps message_json) ;;
  lowered <- lift (py_lower new_state) ;;
  let base_data :=
    {| colour := if negb (String.eqb lowered "alarm") then "Good" else "Attention";
       title := (if negb (String.eqb lowered "alarm") then "Resolved" else "Red Alert")
                  ++ " - " ++ Render.str alarm_name;
       text := "**" ++ Render.str alarm_name ++ "** changed from **"
                 ++ Render.str old_state ++ "** to **" ++ Render.str new_state
                 ++ "**" ++ newline ++ newline ++ "Reason: " ++ Render.str reason |} in
  lift (overrides_get new_state alarm_name base_data).

(** Lines 111-112. *)
Definition audit_data (message_json : pyval) : M card_data :=
  logger_info "Parsing CloudTrail event" ;;
  detail <- lift (Py.getitem message_json "detail") ;;
  parse_cloudtrail_event detail.

(** Lines 115-127. *)
Definition generic_data (sns_record : pyval) : M card_data :=
  logger_info "Fallback SNS message" ;;
  shown <- lift (Py.get sns_record "Subject" (PStr "No Subject")) ;;
  subject <- lift (Py.get sns_record "Subject" PNone) ;;
  type <- lift (Py.get sns_record "Type" PNone) ;;
  message_id <- lift (Py.get sns_record "MessageId" PNone) ;;
  topic_arn <- lift (Py.get sns_record "TopicArn" PNone) ;;
  message <- lift (Py.get sns_record "Message" PNone) ;;
  timestamp <- lift (Py.get sns_record "Timestamp" PNone) ;;
  ret {| colour := "Warning";
         title := "Alert - " ++ Render.str shown;
         text := Render.dumps_indent 2
                   (PDict [ ("Subject", subject);
                            ("Type", type);
                            ("MessageId", message_id);
                            ("TopicArn", topic_arn);
                            ("Message", message);
                            ("Timestamp", timestamp) ]) |}.

(** Lines 131-143: one request, and the two handlers of the [try]. *)
Definition deliver (card_payload : pyval) : M unit :=
  let req := {| full_url := HOOK_URL;
                data := Render.dumps card_payload;
                headers := [("Content-Type", "application/json")] |} in
  emit (Urlopen req) ;;
  match urlopen req with
  | Returned _ => logger_info "Message posted successfully."
  | Raised (HTTPError code reason) =>
      logger_error ("Request failed: " ++ Str.of_Z code ++ " " ++ reason)
  | Raised (URLError reason) =>
      logger_error ("Server connection failed: " ++ reason)
  | Raised f => ([], Raised f)
  end.

(** Lines 73-143. *)
Definition lambda_handler (event context : pyval) : M unit :=
  logger_info ("Event: " ++ Render.dumps event) ;;
  records <- lift (Py.getitem event "Records") ;;
  record <- lift (Py.getitem0 records) ;;
  sns_record <- lift (Py.getitem record "Sns") ;;
  message <- lift (Py.getitem sns_record "Message") ;;
  message_json <- lift (loads message) ;;
  selected <- lift (select_branch message message_json) ;;
  data <- match selected with
          | AlarmState => alarm_data message_json
          | AuditEvent => audit_data message_json
          | Generic => generic_data sns_record
          end ;;
  let card_payload := build_adaptive_card data in
  deliver card_payload.

End NotifyTeams.

(** ** A decoder for the section variable [json_loads]

    The grammar [json.loads] accepts, on the strings of the model.  Every
    decoding error is a [JSONDecodeError].  An escape above U+00FF names a
    character the strings of the model do not have; such a document is
    outside the model and is refused.  The conversion of a literal with a
    fraction or an exponent to the [repr] of its float is the interpreter's
    arithmetic and is the argument [float_repr]. *)

Module Json.

Definition is_ws (c : ascii) : bool :=
  let n := Str.code c in
  (n =? 32)%nat || (n =? 9)%nat || (n =? 10)%nat || (n =? 13)%nat.

Definition is_digit (c : ascii) : bool := Str.between 48 57 c.

Fixpoint skip_ws (s : string) : string :=
  match s with
  | String c r => if is_ws c then skip_ws r else s
  | EmptyString => s
  end.

(** The longest run of digits that opens [s], and what follows it. *)
Fixpoint digits (s : string) : string * string :=
  match s with
  | String c r =>
      if is_digit c then let (d, rest) := digits r in (String c d, rest)
      else (EmptyString, s)
  | EmptyString => (EmptyString, s)
  end.

Fixpoint nat_of_digits (acc : Z) (s : string) : Z :=
  match s with
  | String c r => nat_of_digits (10 * acc + Z.of_nat (Str.code c - 48)) r
  | EmptyString => acc
  end.

Fixpoint strip_prefix (p s : string) : option string :=
  match p, s with
  | EmptyString, _ => Some s
  | String a p', String b s' =>
      if Ascii.eqb a b then strip_prefix p' s' else None
  | String _ _, EmptyString => None
  end.

Definition hex_value (c : ascii) : option nat :=
  if Str.between 48 57 c then Some (Str.code c - 48)
  else if Str.between 97 102 c then Some (Str.code c - 87)
  else if Str.between 65 70 c then Some (Str.code c - 55)
  else None.

(** The character a backslash followed by [c] stands for. *)
Definition unescape (c : ascii) : option ascii :=
  if Ascii.eqb c "034" then Some "034"%char
  else if Ascii.eqb c "\" then Some "\"%char
  else if Ascii.eqb c "/" then Some "/"%char
  else if Ascii.eqb c "b" then Some (ascii_of_nat 8)
  else if Ascii.eqb c "f" then Some (ascii_of_nat 12)
  else if Ascii.eqb c "n" then Some (ascii_of_nat 10)
  else if Ascii.eqb c "r" then Some (ascii_of_nat 13)
  else if Ascii.eqb c "t" then Some (ascii_of_nat 9)
  else None.

Definition cons_char (c : ascii) (r : option (string * string))
  : option (string * string) :=
  match r with
  | Some (body, rest) => Some (String c body, rest)
  | None => None
  end.

(** The body of a string literal, read from just after its opening quote,
    and what follows its closing quote. *)
Fixpoint scanstring (s : string) : option (string * string) :=
  match s with
  | EmptyString => None
  | String c r =>
      if Ascii.eqb c "034" then Some (EmptyString, r)
      else if Ascii.eqb c "\" then
        match r with
        | String "u" (String h1 (String h2 (String h3 (String h4 r')))) =>
            match hex_value h1, hex_value h2, hex_value h3, hex_value h4 with
            | Some 0, Some 0, Some a, Some b =>
                cons_char (ascii_of_nat (16 * a + b)) (scanstring r')
            | _, _, _, _ => None
            end
        | String e r' =>
            match unescape e with
            | Some x => cons_char x (scanstring r')
            | None => None
            end
        | EmptyString => None
        end
      else if (Str.code c <? 32)%nat then None
      else cons_char c (scanstring r)
  end.

Section Scan.

Variable float_repr : string -> string.

(** A number literal: an integer part, then an optional fraction and an
    optional exponent, each taken only when complete. *)
Definition number (s : string) : option (pyval * string) :=
  let (sign, s1) :=
    match s with
    | String "-" r => ("-", r)
    | _ => (EmptyString, s)
    end in
  let (int_part, s2) :=
    match s1 with
    | String "0" r => ("0", r)
    | _ => digits s1
    end in
  if String.eqb int_part EmptyString then None
  else
    let (frac, s3) :=
      match s2 with
      | String "." r =>
          let (d, rest) := digits r in
          if String.eqb d EmptyString then (EmptyString, s2)
          else (String "." d, rest)
      | _ => (EmptyString, s2)
      end in
    let (exp, s4) :=
      match s3 with
      | String e r =>
          if Ascii.eqb e "e" || Ascii.eqb e "E" then
            let (sgn, r1) :=
              match r with
              | String "+" r' => ("+", r')
              | String "-" r' => ("-", r')
              | _ => (EmptyString, r)
              end in
            let (d, rest) := digits r1 in
            if String.eqb d EmptyString then (EmptyString, s3)
            else (String e (sgn ++ d), rest)
          else (EmptyString, s3)
      | EmptyString => (EmptyString, s3)
      end in
    if String.eqb frac EmptyString && String.eqb exp EmptyString then
      let n := nat_of_digits 0 int_part in
      Some (PInt (if String.eqb sign "-" then - n else n)%Z, s4)
    else Some (PFloat (float_repr (sign ++ int_part ++ frac ++ exp)), s4).

(** The value that opens [s] when [s] opens with none of a quote, a brace
    or a bracket. *)
Definition scalar (s : string) : option (pyval * string) :=
  match strip_prefix "null" s with
  | Some r => Some (PNone, r)
  | None =>
  match strip_prefix "true" s with
  | Some r => Some (PBool true, r)
  | None =>
  match strip_prefix "false" s with
  | Some r => Some (PBool false, r)
  | None =>
  match number s with
  | Some x => Some x
  | None =>
  match strip_prefix "NaN" s with
  | Some r => Some (PFloat "nan", r)
  | None =>
  match strip_prefix "Infinity" s with
  | Some r => Some (PFloat "inf", r)
  | None =>
  match strip_prefix "-Infinity" s with
  | Some r => Some (PFloat "-inf", r)
  | None => None
  end end end end end end end.

(** [d[k] = v]: the value of an existing key is replaced where it stands,
    a new key goes last. *)
Fixpoint dict_set (k : string) (v : pyval) (d : list (string * pyval))
  : list (string * pyval) :=
  match d with
  | [] => [(k, v)]
  | (k', v') :: r =>
      if String.eqb k k' then (k, v) :: r else (k', v') :: dict_set k v r
  end.

(** [dict(pairs)]. *)
Definition dict_of (pairs : list (string * pyval)) : list (string * pyval) :=
  fold_left (fun d kv => dict_set (fst kv) (snd kv) d) pairs [].

Fixpoint value (fuel : nat) (s : string) : option (pyval * string) :=
  match fuel with
  | O => None
  | S fuel' =>
      match s with
      | EmptyString => None
      | String c r =>
          if Ascii.eqb c "034" then
            match scanstring r with
            | Some (body, rest) => Some (PStr body, rest)
            | None => None
            end
          else if Ascii.eqb c "{" then
            match skip_ws r with
            | String "}" rest => Some (PDict [], rest)
            | r' => members fuel' r' []
            end
          else if Ascii.eqb c "[" then
            match skip_ws r with
            | String "]" rest => Some (PList [], rest)
            | r' => elements fuel' r' []
            end
          else scalar s
      end
  end
with elements (fuel : nat) (s : string) (acc : list pyval)
  : option (pyval * string) :=
  match fuel with
  | O => None
  | S fuel' =>
      match value fuel' s with
      | None => None
      | Some (v, r) =>
          match skip_ws r with
          | String "]" rest => Some (PList (rev (v :: acc)), rest)
          | String "," rest => elements fuel' (skip_ws rest) (v :: acc)
          | _ => None
          end
      end
  end
with members (fuel : nat) (s : string) (acc : list (string * pyval))
  : option (pyval * string) :=
  match fuel with
  | O => None
  | S fuel' =>
      match s with
      | String "034" r =>
          match scanstring r with
          | None => None
          | Some (k, r1) =>
              match skip_ws r1 with
              | String ":" r2 =>
                  match value fuel' (skip_ws r2) with
                  | None => None
                  | Some (v, r3) =>
                      match skip_ws r3 with
                      | String "}" rest =>
                          Some (PDict (dict_of (rev ((k, v) :: acc))), rest)
                      | String "," rest =>
                          members fuel' (skip_ws rest) ((k, v) :: acc)
                      | _ => None
                      end
                  end
              | _ => None
              end
          end
      | _ => None
      end
  end.

(** [json.loads(s)]: one value, with blanks allowed around it and nothing
    else after it. *)
Definition loads (s : string) : result pyval :=
  match value (2 * String.length s + 2) (skip_ws s) with
  | Some (v, rest) =>
      match skip_ws rest with
      | EmptyString => Ok v
      | String _ _ => Raise JSONDecodeError
      end
  | None => Raise JSONDecodeError
  end.

End Scan.

End Json.

(** ** The handler in two halves *)

Section Halves.

Variable json_loads : string -> result pyval.

(** Lines 74-129 of [lambda_handler]: everything before the [try]. *)
Definition card_payload_of (event : pyval) : M pyval :=
  logger_info ("Event: " ++ Render.dumps event) ;;
  records <- lift (Py.getitem event "Records") ;;
  record <- lift (Py.getitem0 records) ;;
  sns_record <- lift (Py.getitem record "Sns") ;;
  message <- lift (Py.getitem sns_record "Message") ;;
  message_json <- lift (loads json_loads message) ;;
  selected <- lift (select_branch json_loads message message_json) ;;
  data <- match selected with
          | AlarmState => alarm_data message_json
          | AuditEvent => audit_data message_json
          | Generic => generic_data sns_record
          end ;;
  ret (build_adaptive_card data).

(** The record and the nested payload an event unwraps to: [sns_record] is
    [event['Records'][0]['Sns']], [message] its Message string and
    [payload] the value that string decodes to. *)
Definition unwraps_to (event sns_record : pyval) (message : string)
    (payload : pyval) : Prop :=
  exists records record,
    Py.getitem event "Records" = Ok records /\
    Py.getitem0 records = Ok record /\
    Py.getitem record "Sns" = Ok sns_record /\
    Py.getitem sns_record "Message" = Ok (PStr message) /\
    json_loads message = Ok payload.

End Halves.

(** ** The specification's wording, for comparison with the code *)

Module Spec.

(** The marker of an audit event. *)
Definition audit_marker : string := "AWS Service Event via CloudTrail".

(** The decision order of the classifier, first match first. *)
Definition classify (payload : list (string * pyval)) : branch :=
  match Py.assoc "AlarmName" payload with
  | Some _ => AlarmState
  | None =>
      match Py.assoc "detail-type" payload with
      | Some detail_type =>
          if Py.eq_str detail_type audit_marker then AuditEvent else Generic
      | None => Generic
      end
  end.

(** The same order read over every decoded payload, object or not: a
    payload that is not an object has neither the key nor the field. *)
Definition classify_any (payload : pyval) : branch :=
  match payload with
  | PDict d => classify d
  | _ => Generic
  end.

(** The computed card of the alarm branch. *)
Definition alarm_default (alarm_name old_state new_state reason : string)
  : card_data :=
  let is_alarm := String.eqb (Str.lower new_state) "alarm" in
  {| colour := if is_alarm then "Attention" else "Good";
     title := (if is_alarm then "Red Alert - " else "Resolved - ") ++ alarm_name;
     text := "**" ++ alarm_name ++ "** changed from **" ++ old_state
               ++ "** to **" ++ new_state ++ "**" ++ newline ++ newline
               ++ "Reason: " ++ reason |}.

(** White space, as [str.isspace] has it on the code points of the model. *)
Definition is_space (c : ascii) : bool :=
  Str.between 9 13 c || Str.between 28 32 c
  || (Str.code c =? 133)%nat || (Str.code c =? 160)%nat.

Fixpoint take_word (s : string) : string :=
  match s with
  | EmptyString => EmptyString
  | String c r => if is_space c then EmptyString else String c (take_word r)
  end.

(** The first whitespace-delimited token of [s]: leading white space is
    passed over, the token runs to the next white space. *)
Fixpoint first_token (s : string) : string :=
  match s with
  | EmptyString => EmptyString
  | String c r => if is_space c then first_token r else take_word s
  end.

(** The audit title as worded: the fault code is the first
    whitespace-delimited token of the 7th colon-delimited segment. *)
Definition audit_title (error_message event_name : string) : option string :=
  if Str.has_char ":" error_message then
    match nth_error (Str.split ":" error_message) 6 with
    | Some segment =>
        Some ("Alert - " ++ first_token segment ++ " - Issue: " ++ event_name)
    | None => None
    end
  else Some ("Alert - Issue: " ++ event_name).

End Spec.

(** The part of [s] before its first space; all of [s] when it has none. *)
Fixpoint before_space (s : string) : string :=
  match s with
  | EmptyString => EmptyString
  | String c r => if Ascii.eqb c " " then EmptyString else String c (before_space r)
  end.

(** Number of occurrences of [c] in [s]. *)
Fixpoint count_char (c : ascii) (s : string) : nat :=
  match s with
  | EmptyString => 0
  | String d r => (if Ascii.eqb d c then 1 else 0) + count_char c r
  end.

(** The value of field [k] of a record, [None] when the record has no [k]. *)
Definition field (k : string) (r : list (string * pyval)) : pyval :=
  match Py.assoc k r with
  | Some v => v
  | None => PNone
  end.

(** A quoted JSON key followed by its separator, as [json.dumps] writes it. *)
Definition key_text (k : string) : string := Render.json_str k ++ ": ".

(** The title of the card the audit formatter returns, if it returns one. *)
Definition audit_title_of (detail : pyval) : option string :=
  match ending (parse_cloudtrail_event detail) with
  | Returned cd => Some (title cd)
  | Raised _ => None
  end.

(** The event name the audit formatter shows: the field, or its placeholder. *)
Definition shown_event_name (detail : list (string * pyval)) : string :=
  Render.str match Py.assoc "eventName" detail with
             | Some v => v
             | None => PStr "UnknownEvent"
             end.

(** The first of [keys], in their order, that the object [d] does not have. *)
Fixpoint first_absent (keys : list string) (d : list (string * pyval))
  : option string :=
  match keys with
  | [] => None
  | k :: rest =>
      match Py.assoc k d with
      | Some _ => first_absent rest d
      | None => Some k
      end
  end.

(** The keys the alarm branch reads after AlarmName, in the order of lines
    83-85. *)
Definition alarm_state_keys : list string :=
  ["OldStateValue"; "NewStateValue"; "NewStateReason"].

(** The value of field [k] of an object, [dflt] when it has no [k]. *)
Definition field_or (k : string) (dflt : pyval) (r : list (string * pyval))
  : pyval :=
  match Py.assoc k r with
  | Some v => v
  | None => dflt
  end.

Definition is_string (v : pyval) : bool :=
  match v with
  | PStr _ => true
  | _ => false
  end.

Definition is_object (v : pyval) : bool :=
  match v with
  | PDict _ => true
  | _ => false
  end.

(** The values that are no containers: [in] raises [TypeError] on them. *)
Definition is_scalar (v : pyval) : bool :=
  match v with
  | PNone | PBool _ | PInt _ | PFloat _ => true
  | _ => false
  end.

(** The conditions of lines 81-114 with the helper call of line 81 left out. *)
Definition select_by_payload (message_json : pyval) : result branch :=
  match Py.contains "AlarmName" message_json with
  | Raise e => Raise e
  | Ok true => Ok AlarmState
  | Ok false =>
      match Py.get message_json "detail-type" PNone with
      | Raise e => Raise e
      | Ok detail_type =>
          if Py.eq_str detail_type "AWS Service Event via CloudTrail"
          then Ok AuditEvent else Ok Generic
      end
  end.

(** ** Documents that are text all the way down

    The values whose JSON text reads back as the value itself whatever the
    float conversion is: no numbers, and objects with pairwise distinct
    keys. *)

Fixpoint distinct_keys (d : list (string * pyval)) : bool :=
  match d with
  | [] => true
  | (k, _) :: r =>
      match Py.assoc k r with
      | Some _ => false
      | None => distinct_keys r
      end
  end.

Fixpoint plain (v : pyval) : bool :=
  match v with
  | PNone | PBool _ | PStr _ => true
  | PInt _ | PFloat _ => false
  | PList l => forallb plain l
  | PDict d =>
      forallb (fun kv : string * pyval => plain (snd kv)) d && distinct_keys d
  end.

(** The number of nodes of a value, which bounds the fuel its text needs. *)
Fixpoint size (v : pyval) : nat :=
  match v with
  | PList l => S (fold_right (fun x n => S (size x + n)) 0 l)
  | PDict d =>
      S (fold_right (fun (kv : string * pyval) n => S (size (snd kv) + n)) 0 d)
  | _ => 1
  end.

Definition sizes (l : list pyval) : nat :=
  fold_right (fun x n => S (size x + n)) 0 l.

Definition member_sizes (d : list (string * pyval)) : nat :=
  fold_right (fun (kv : string * pyval) n => S (size (snd kv) + n)) 0 d.

(** One member of an object in a document without indentation. *)
Definition member_text (lvl : nat) (kv : string * pyval) : string :=
  let (k, x) := kv in Render.json_str k ++ ": " ++ Render.encode None lvl x.

(** The characters the text of a plain value can begin with. *)
Definition opener (c : ascii) : bool :=
  Ascii.eqb c "n" || Ascii.eqb c "t" || Ascii.eqb c "f"
  || Ascii.eqb c "034" || Ascii.eqb c "[" || Ascii.eqb c "{".

(** With fuel [m] the decoder reads the text of every plain value of size at
    most [m] back, and leaves what follows it. *)
Definition reads_back (float_repr : string -> string) (m : nat) : Prop :=
  forall lvl v rest,
    plain v = true -> size v <= m ->
    Json.value float_repr m (Render.encode None lvl v ++ rest) = Some (v, rest).

(** ** The texts of the cards, written out

    What the text of a card looks like on the page, spelled with literal
    characters only, for the fields that are absent or are strings of
    characters JSON writes as they are. *)

Module Text.

Definition nl : string := String "010" EmptyString.

(** A string between double quotes. *)
Definition quoted (s : string) : string :=
  String "034" (s ++ String "034" EmptyString).

(** The characters a JSON string literal shows as they are: printable ASCII
    but the double quote and the backslash. *)
Definition safe_char (c : ascii) : bool :=
  let n := nat_of_ascii c in
  (32 <=? n)%nat && (n <=? 126)%nat && negb (n =? 34)%nat && negb (n =? 92)%nat.

Fixpoint safe (s : string) : bool :=
  match s with
  | EmptyString => true
  | String c r => safe_char c && safe r
  end.

(** A field on the page: the quoted string, or null for a field that is not
    there. *)
Definition value_text (o : option string) : string :=
  match o with
  | Some s => quoted s
  | None => "null"
  end.

Definition or_default (o : option string) (dflt : string) : string :=
  match o with
  | Some s => s
  | None => dflt
  end.

Fixpoint lines (l : list string) : string :=
  match l with
  | [] => EmptyString
  | [x] => x
  | x :: r => x ++ nl ++ lines r
  end.

(** The text of the generic card. *)
Definition generic_text
    (subject type message_id topic_arn message timestamp : option string)
  : string :=
  lines [ "{";
          "  " ++ quoted "Subject" ++ ": " ++ value_text subject ++ ",";
          "  " ++ quoted "Type" ++ ": " ++ value_text type ++ ",";
          "  " ++ quoted "MessageId" ++ ": " ++ value_text message_id ++ ",";
          "  " ++ quoted "TopicArn" ++ ": " ++ value_text topic_arn ++ ",";
          "  " ++ quoted "Message" ++ ": " ++ value_text message ++ ",";
          "  " ++ quoted "Timestamp" ++ ": " ++ value_text timestamp;
          "}" ].

(** The text of the audit card. *)
Definition audit_text
    (event_name event_type event_id error_message event_time : option string)
  : string :=
  lines [ "{";
          "  " ++ quoted "Subject" ++ ": "
            ++ quoted (or_default event_name "UnknownEvent") ++ ",";
          "  " ++ quoted "Type" ++ ": "
            ++ quoted (or_default event_type "Unknown") ++ ",";
          "  " ++ quoted "MessageId" ++ ": "
            ++ quoted (or_default event_id "Unknown") ++ ",";
          "  " ++ quoted "Message" ++ ": "
            ++ quoted (or_default error_message "No error message provided") ++ ",";
          "  " ++ quoted "Timestamp" ++ ": "
            ++ quoted (or_default event_time "Unknown");
          "}" ].

End Text.

(** Field [k] of the object [r] is absent ([None]) or is the string [s] of
    characters that need no escape ([Some s]). *)
Definition holds (r : list (string * pyval)) (k : string) (o : option string)
  : Prop :=
  match o with
  | None => Py.assoc k r = None
  | Some s => Py.assoc k r = Some (PStr s) /\ Text.safe s = true
  end.


(** The request of lines 132-136 for a card. *)
Definition request_of (HOOK_URL : string) (card_payload : pyval) : request :=
  {| full_url := HOOK_URL;
     data := Render.dumps card_payload;
     headers := [("Content-Type", "application/json")] |}.

(** ** Sample events *)

Module Sample.

Definition hook : string := "https://example.webhook.office.com/webhookb2/abc".

(** The decoder at literals written as their float prints. *)
Definition loads : string -> result pyval := Json.loads (fun lit => lit).

Definition delivered : request -> outcome unit := fun _ => Returned tt.
Definition forbidden : request -> outcome unit :=
  fun _ => Raised (HTTPError 403 "Forbidden").
Definition unreachable : request -> outcome unit :=
  fun _ => Raised (URLError "[Errno 111] Connection refused").

Definition record_of (subject : option pyval) (message : string) : pyval :=
  PDict ((match subject with
          | Some s => [("Subject", s)]
          | None => []
          end)
         ++ [ ("Type", PStr "Notification");
              ("MessageId", PStr "95df01b4-ee98-5cb9-9903-4c221d41eb5e");
              ("TopicArn", PStr "arn:aws:sns:eu-west-1:123456789012:alerts");
              ("Message", PStr message);
              ("Timestamp", PStr "2024-01-01T00:00:00.000Z") ])%list.

Definition event_of (subject : option pyval) (message : string) : pyval :=
  PDict [ ("Records",
           PList [ PDict [ ("EventSource", PStr "aws:sns");
                           ("Sns", record_of subject message) ] ]) ].

Definition context : pyval := PNone.

Definition alarm_fields (name state : string) : list (string * pyval) :=
  [ ("AlarmName", PStr name);
    ("OldStateValue", PStr "INSUFFICIENT_DATA");
    ("NewStateValue", PStr state);
    ("NewStateReason", PStr "Threshold Crossed") ].

Definition alarm_payload (name state : string) : pyval :=
  PDict (alarm_fields name state).

Definition audit_payload (detail : list (string * pyval)) : pyval :=
  PDict [ ("detail-type", PStr "AWS Service Event via CloudTrail");
          ("detail", PDict detail) ].

(** An alarm that also carries the audit marker, and no detail. *)
Definition marked_alarm_payload : pyval :=
  PDict [ ("AlarmName", PStr "cpu-high");
          ("OldStateValue", PStr "OK");
          ("NewStateValue", PStr "ALARM");
          ("NewStateReason", PStr "Threshold Crossed");
          ("detail-type", PStr "AWS Service Event via CloudTrail") ].

Definition marker_only_payload : pyval :=
  PDict [ ("detail-type", PStr "AWS Service Event via CloudTrail") ].

Definition other_payload : pyval :=
  PDict [ ("source", PStr "aws.health"); ("detail-type", PStr "AWS Health Event") ].

Definition empty_envelope : pyval := PDict [ ("Records", PList []) ].

Definition tab : string := String (ascii_of_nat 9) EmptyString.

End Sample.

(** * Properties *)

(** ** The monad *)

Lemma bind_ret_l {A B : Type} (a : A) (k : A -> M B) : bind (ret a) k = k a.
Proof. unfold bind, ret. destruct (k a) as [t r]. reflexivity. Qed.

Lemma bind_ret_r {A : Type} (m : M A) : bind m ret = m.
Proof.
  destruct m as [t [a | f]]; unfold bind, ret; simpl; [ | reflexivity ].
  now rewrite app_nil_r.
Qed.

Lemma bind_assoc {A B C : Type} (m : M A) (k : A -> M B) (h : B -> M C) :
  bind (bind m k) h = bind m (fun a => bind (k a) h).
Proof.
  destruct m as [t [a | f]]; unfold bind; [ | reflexivity ].
  destruct (k a) as [t1 [b | f]]; [ | reflexivity ].
  destruct (h b) as [t2 r]. now rewrite app_assoc.
Qed.

Lemma bind_lift_ok {A B : Type} (a : A) (k : A -> M B) :
  bind (lift (Ok a)) k = k a.
Proof. exact (bind_ret_l a k). Qed.

Lemma bind_lift_raise {A B : Type} (e : exn) (k : A -> M B) :
  bind (lift (Raise e)) k = ([], Raised (Builtin e)).
Proof. reflexivity. Qed.

Lemma bind_emit {B : Type} (e : effect) (k : unit -> M B) :
  bind (emit e) k = (e :: trace (k tt), ending (k tt)).
Proof. unfold bind, emit, trace, ending. destruct (k tt). reflexivity. Qed.

Lemma bind_logger_info {B : Type} (msg : string) (k : unit -> M B) :
  bind (logger_info msg) k = (Log INFO msg :: trace (k tt), ending (k tt)).
Proof. apply bind_emit. Qed.

Lemma bind_ext {A B : Type} (m : M A) (k k' : A -> M B) :
  (forall a, k a = k' a) -> bind m k = bind m k'.
Proof.
  intros E. destruct m as [t [a | f]]; unfold bind; [ | reflexivity ].
  now rewrite E.
Qed.

Lemma trace_bind {A B : Type} (m : M A) (k : A -> M B) :
  trace (bind m k) =
  match ending m with
  | Returned a => (trace m ++ trace (k a))%list
  | Raised _ => trace m
  end.
Proof.
  destruct m as [t [a | f]]; unfold bind, trace, ending; simpl; [ | reflexivity ].
  destruct (k a). reflexivity.
Qed.

Lemma ending_bind {A B : Type} (m : M A) (k : A -> M B) :
  ending (bind m k) =
  match ending m with
  | Returned a => ending (k a)
  | Raised f => Raised f
  end.
Proof.
  destruct m as [t [a | f]]; unfold bind, trace, ending; simpl; [ | reflexivity ].
  destruct (k a). reflexivity.
Qed.

Lemma posts_app (t u : list effect) : posts (t ++ u) = (posts t ++ posts u)%list.
Proof.
  induction t as [ | [lvl msg | req] t IH]; simpl; [ reflexivity | exact IH | ].
  now rewrite IH.
Qed.

Lemma trace_lift {A : Type} (r : result A) : trace (lift r) = [].
Proof. destruct r; reflexivity. Qed.

(** ** Strings *)

Lemma split_not_nil (c : ascii) (s : string) : Str.split c s <> [].
Proof.
  destruct s as [ | d r]; simpl; [ discriminate | ].
  destruct (Ascii.eqb d c); [ discriminate | ].
  destruct (Str.split c r); discriminate.
Qed.

(** A string has one segment more than it has separators. *)
Lemma split_length (c : ascii) (s : string) :
  length (Str.split c s) = S (count_char c s).
Proof.
  induction s as [ | d r IH]; simpl; [ reflexivity | ].
  destruct (Ascii.eqb d c); simpl; [ now rewrite IH | ].
  destruct (Str.split c r) as [ | x xs] eqn:E; [ now apply split_not_nil in E | ].
  simpl in *. exact IH.
Qed.

Lemma has_char_count (c : ascii) (s : string) :
  Str.has_char c s = negb (count_char c s =? 0)%nat.
Proof.
  induction s as [ | d r IH]; simpl; [ reflexivity | ].
  rewrite (Ascii.eqb_sym c d). destruct (Ascii.eqb d c); simpl; [ reflexivity | exact IH ].
Qed.

(** A separator-free string is its own single segment. *)
Lemma split_none (c : ascii) (s : string) :
  Str.has_char c s = false -> Str.split c s = [s].
Proof.
  induction s as [ | d r IH]; simpl; [ reflexivity | ].
  rewrite (Ascii.eqb_sym c d). destruct (Ascii.eqb d c); simpl; [ discriminate | ].
  intros H. now rewrite (IH H).
Qed.

(** Splitting undoes joining: a separator-free head is the first segment. *)
Lemma split_cons (c : ascii) (x rest : string) :
  Str.has_char c x = false ->
  Str.split c (x ++ String c rest) = x :: Str.split c rest.
Proof.
  induction x as [ | d r IH]; simpl.
  - intros _. now rewrite Ascii.eqb_refl.
  - rewrite (Ascii.eqb_sym c d). destruct (Ascii.eqb d c); simpl; [ discriminate | ].
    intros H. now rewrite (IH H).
Qed.

(** For one character, [c in s] as a substring test is [has_char]. *)
Lemma contains_char (c : ascii) (s : string) :
  Str.contains (String c EmptyString) s = Str.has_char c s.
Proof.
  induction s as [ | d r IH]; simpl; [ reflexivity | ].
  rewrite IH. destruct (Ascii.ascii_dec c d) as [E | N].
  - subst. rewrite Ascii.eqb_refl. simpl. now destruct r.
  - apply Ascii.eqb_neq in N. rewrite N.
    destruct (Ascii.ascii_dec c d); [ now subst; rewrite Ascii.eqb_refl in N | reflexivity ].
Qed.

(** The first segment of a split on the space is the part before the first
    space. *)
Lemma split_space_head (s : string) :
  py_index (Str.split " " s) 0 = Ok (before_space s).
Proof.
  induction s as [ | d r IH]; simpl; [ reflexivity | ].
  destruct (Ascii.eqb d " "); [ reflexivity | ].
  destruct (Str.split " " r) as [ | x xs] eqn:E; [ now apply split_not_nil in E | ].
  unfold py_index in *. simpl in *. now inversion IH.
Qed.

(** ** The handler is the card, then its delivery *)

Section HandlerFacts.

Variable HOOK_URL : string.
Variable json_loads : string -> result pyval.
Variable urlopen : request -> outcome unit.

Lemma lambda_handler_halves (event context : pyval) :
  lambda_handler HOOK_URL json_loads urlopen event context =
  bind (card_payload_of json_loads event) (deliver HOOK_URL urlopen).
Proof.
  unfold lambda_handler, card_payload_of.
  repeat (rewrite bind_assoc; apply bind_ext; intros ?).
  now rewrite bind_ret_l.
Qed.

(** What an unwrapped event runs: the branch, then the card. *)
Lemma card_payload_of_unwrapped (event sns_record : pyval) (message : string)
    (payload : pyval) :
  unwraps_to json_loads event sns_record message payload ->
  card_payload_of json_loads event =
  (logger_info ("Event: " ++ Render.dumps event) ;;
   selected <- lift (select_branch json_loads (PStr message) payload) ;;
   data <- match selected with
           | AlarmState => alarm_data payload
           | AuditEvent => audit_data payload
           | Generic => generic_data sns_record
           end ;;
   ret (build_adaptive_card data)).
Proof.
  intros (records & record & H1 & H2 & H3 & H4 & H5).
  unfold card_payload_of. apply bind_ext. intros _.
  rewrite H1, bind_lift_ok, H2, bind_lift_ok, H3, bind_lift_ok, H4, bind_lift_ok.
  simpl loads. rewrite H5, bind_lift_ok. reflexivity.
Qed.

(** The formatters log; they never call [urlopen]. *)
Lemma posts_parse_cloudtrail_event (detail : pyval) :
  posts (trace (parse_cloudtrail_event detail)) = [].
Proof.
  unfold parse_cloudtrail_event.
  destruct (Py.get detail "eventName" _) as [a | e]; [ | reflexivity ].
  rewrite bind_logger_info, bind_lift_ok.
  destruct (Py.get detail "errorMessage" _) as [b | e]; [ | reflexivity ].
  rewrite bind_lift_ok.
  destruct (cloudtrail_title b a) as [c | e]; [ | reflexivity ].
  rewrite bind_lift_ok.
  destruct (Py.get detail "eventType" _) as [x | e]; [ | reflexivity ].
  rewrite bind_lift_ok.
  destruct (Py.get detail "eventID" _) as [y | e]; [ | reflexivity ].
  rewrite bind_lift_ok.
  destruct (Py.get detail "eventTime" _) as [z | e]; reflexivity.
Qed.

Lemma posts_alarm_data (message_json : pyval) :
  posts (trace (alarm_data message_json)) = [].
Proof.
  unfold alarm_data.
  destruct (Py.getitem message_json "AlarmName") as [a | e]; [ | reflexivity ].
  rewrite bind_lift_ok.
  destruct (Py.getitem message_json "OldStateValue") as [b | e]; [ | reflexivity ].
  rewrite bind_lift_ok.
  destruct (Py.getitem message_json "NewStateValue") as [c | e]; [ | reflexivity ].
  rewrite bind_lift_ok.
  destruct (Py.getitem message_json "NewStateReason") as [d | e]; [ | reflexivity ].
  rewrite bind_lift_ok, bind_logger_info.
  destruct (py_lower c) as [l | e]; [ | reflexivity ].
  rewrite bind_lift_ok. cbv zeta.
  destruct (overrides_get c a _); reflexivity.
Qed.

Lemma posts_audit_data (message_json : pyval) :
  posts (trace (audit_data message_json)) = [].
Proof.
  unfold audit_data. rewrite bind_logger_info.
  destruct (Py.getitem message_json "detail") as [d | e]; [ | reflexivity ].
  rewrite bind_lift_ok. simpl. apply posts_parse_cloudtrail_event.
Qed.

Lemma posts_generic_data (sns_record : pyval) :
  posts (trace (generic_data sns_record)) = [].
Proof.
  unfold generic_data. rewrite bind_logger_info. simpl.
  destruct sns_record; reflexivity.
Qed.

(** Nothing is sent while the card is being built. *)
Lemma posts_card_payload_of (event : pyval) :
  posts (trace (card_payload_of json_loads event)) = [].
Proof.
  unfold card_payload_of. rewrite bind_logger_info. simpl.
  destruct (Py.getitem event "Records") as [records | e]; [ | reflexivity ].
  rewrite bind_lift_ok.
  destruct (Py.getitem0 records) as [record | e]; [ | reflexivity ].
  rewrite bind_lift_ok.
  destruct (Py.getitem record "Sns") as [sns_record | e]; [ | reflexivity ].
  rewrite bind_lift_ok.
  destruct (Py.getitem sns_record "Message") as [message | e]; [ | reflexivity ].
  rewrite bind_lift_ok.
  destruct (loads json_loads message) as [message_json | e]; [ | reflexivity ].
  rewrite bind_lift_ok.
  destruct (select_branch json_loads message message_json) as [selected | e];
    [ | reflexivity ].
  rewrite bind_lift_ok, trace_bind.
  assert (P : posts (trace match selected with
                           | AlarmState => alarm_data message_json
                           | AuditEvent => audit_data message_json
                           | Generic => generic_data sns_record
                           end) = []).
  { destruct selected;
      [ apply posts_alarm_data | apply posts_audit_data | apply posts_generic_data ]. }
  destruct (ending _); [ | exact P ].
  rewrite posts_app, P. reflexivity.
Qed.

(** An exception that leaves the card building is a built-in one. *)
Lemma card_payload_of_raises_builtin (event : pyval) (f : failure) :
  ending (card_payload_of json_loads event) = Raised f ->
  exists e, f = Builtin e.
Proof.
  unfold card_payload_of. rewrite bind_logger_info. unfold ending at 1. simpl snd.
  destruct (Py.getitem event "Records") as [records | e];
    [ rewrite bind_lift_ok | intros H; inversion H; eauto ].
  destruct (Py.getitem0 records) as [record | e];
    [ rewrite bind_lift_ok | intros H; inversion H; eauto ].
  destruct (Py.getitem record "Sns") as [sns_record | e];
    [ rewrite bind_lift_ok | intros H; inversion H; eauto ].
  destruct (Py.getitem sns_record "Message") as [message | e];
    [ rewrite bind_lift_ok | intros H; inversion H; eauto ].
  destruct (loads json_loads message) as [message_json | e];
    [ rewrite bind_lift_ok | intros H; inversion H; eauto ].
  destruct (select_branch json_loads message message_json) as [selected | e];
    [ rewrite bind_lift_ok | intros H; inversion H; eauto ].
  rewrite ending_bind.
  destruct selected.
  - unfold alarm_data.
    destruct (Py.getitem message_json "AlarmName") as [a | e];
      [ rewrite bind_lift_ok | intros H; inversion H; eauto ].
    destruct (Py.getitem message_json "OldStateValue") as [b | e];
      [ rewrite bind_lift_ok | intros H; inversion H; eauto ].
    destruct (Py.getitem message_json "NewStateValue") as [c | e];
      [ rewrite bind_lift_ok | intros H; inversion H; eauto ].
    destruct (Py.getitem message_json "NewStateReason") as [d | e];
      [ rewrite bind_lift_ok, bind_logger_info | intros H; inversion H; eauto ].
    destruct (py_lower c) as [l | e];
      [ rewrite bind_lift_ok | intros H; inversion H; eauto ].
    cbv zeta. destruct (overrides_get c a _); intros H; inversion H; eauto.
  - unfold audit_data. rewrite bind_logger_info.
    destruct (Py.getitem message_json "detail") as [d | e];
      [ rewrite bind_lift_ok | intros H; inversion H; eauto ].
    unfold parse_cloudtrail_event. rewrite bind_logger_info.
    destruct (Py.get d "eventName" _) as [a | e];
      [ rewrite bind_lift_ok | intros H; inversion H; eauto ].
    destruct (Py.get d "errorMessage" _) as [b | e];
      [ rewrite bind_lift_ok | intros H; inversion H; eauto ].
    destruct (cloudtrail_title b a) as [c | e];
      [ rewrite bind_lift_ok | intros H; inversion H; eauto ].
    destruct (Py.get d "eventType" _) as [x | e];
      [ rewrite bind_lift_ok | intros H; inversion H; eauto ].
    destruct (Py.get d "eventID" _) as [y | e];
      [ rewrite bind_lift_ok | intros H; inversion H; eauto ].
    destruct (Py.get d "eventTime" _) as [z | e]; intros H; inversion H; eauto.
  - unfold generic_data. rewrite bind_logger_info.
    destruct sns_record; intros H; inversion H; eauto.
Qed.

End HandlerFacts.

(** ** Unwrapping the envelope *)

(** C8. An envelope with zero records: indexing the empty record list raises
    [IndexError] (the malformed-envelope failure), the invocation ends with
    that exception after the one log line for the event, and no card is
    built or sent. *)
Theorem empty_envelope_aborts
    (HOOK_URL : string) (json_loads : string -> result pyval)
    (urlopen : request -> outcome unit) (event context : pyval) :
  Py.getitem event "Records" = Ok (PList []) ->
  lambda_handler HOOK_URL json_loads urlopen event context =
    ([Log INFO ("Event: " ++ Render.dumps event)], Raised (Builtin IndexError))
  /\ posts (trace (lambda_handler HOOK_URL json_loads urlopen event context)) = [].
Proof.
  intros H.
  assert (E : lambda_handler HOOK_URL json_loads urlopen event context =
              ([Log INFO ("Event: " ++ Render.dumps event)],
               Raised (Builtin IndexError))).
  { unfold lambda_handler. rewrite bind_logger_info, H, bind_lift_ok.
    reflexivity. }
  split; [ exact E | now rewrite E ].
Qed.

Lemma empty_envelope_aborts_witness :
  lambda_handler Sample.hook Sample.loads Sample.delivered
    Sample.empty_envelope Sample.context =
    ([Log INFO ("Event: " ++ Render.dumps Sample.empty_envelope)],
     Raised (Builtin IndexError))
  /\ posts (trace (lambda_handler Sample.hook Sample.loads Sample.delivered
                     Sample.empty_envelope Sample.context)) = [].
Proof.
  apply (empty_envelope_aborts Sample.hook Sample.loads Sample.delivered
           Sample.empty_envelope Sample.context).
  reflexivity.
Defined.

(** ** Decoding the nested message *)

(** The helper of lines 14-19 does recover from a message that is not JSON. *)
Lemma is_cloudwatch_alarm_recovers
    (json_loads : string -> result pyval) (message : string) :
  json_loads message = Raise JSONDecodeError ->
  is_cloudwatch_alarm json_loads (PStr message) = Ok false.
Proof. intros H. unfold is_cloudwatch_alarm. simpl. now rewrite H. Qed.

(** C1. A Message that is not valid JSON: the handler decodes it at line 77
    outside any [try], so the [JSONDecodeError] leaves the handler; no branch
    is entered and nothing is sent. *)
Theorem decode_failure_leaves_handler
    (HOOK_URL : string) (json_loads : string -> result pyval)
    (urlopen : request -> outcome unit)
    (event context records record sns_record : pyval) (message : string) :
  Py.getitem event "Records" = Ok records ->
  Py.getitem0 records = Ok record ->
  Py.getitem record "Sns" = Ok sns_record ->
  Py.getitem sns_record "Message" = Ok (PStr message) ->
  json_loads message = Raise JSONDecodeError ->
  lambda_handler HOOK_URL json_loads urlopen event context =
    ([Log INFO ("Event: " ++ Render.dumps event)],
     Raised (Builtin JSONDecodeError)).
Proof.
  intros H1 H2 H3 H4 H5. unfold lambda_handler.
  rewrite bind_logger_info, H1, bind_lift_ok, H2, bind_lift_ok, H3, bind_lift_ok,
    H4, bind_lift_ok.
  simpl loads. rewrite H5. reflexivity.
Qed.

Lemma decode_failure_leaves_handler_witness :
  lambda_handler Sample.hook Sample.loads Sample.delivered
    (Sample.event_of (Some (PStr "Disk almost full")) "plain text alert")
    Sample.context =
    ([Log INFO ("Event: " ++ Render.dumps
                  (Sample.event_of (Some (PStr "Disk almost full")) "plain text alert"))],
     Raised (Builtin JSONDecodeError)).
Proof.
  eapply (decode_failure_leaves_handler Sample.hook Sample.loads Sample.delivered
            (Sample.event_of (Some (PStr "Disk almost full")) "plain text alert")
            Sample.context);
    reflexivity.
Defined.

(** ** Delivery *)

(** A connection failure is swallowed in the same way. *)
Example connection_failure_swallowed :
  let run := lambda_handler Sample.hook Sample.loads Sample.unreachable
               (Sample.event_of (Some (PStr "Disk almost full"))
                  (Render.dumps Sample.other_payload))
               Sample.context in
  ending run = Returned tt
  /\ length (posts (trace run)) = 1
  /\ last (trace run) (Log INFO EmptyString) =
     Log ERROR "Server connection failed: [Errno 111] Connection refused".
Proof. vm_compute. repeat split. Qed.

(** Any other exception of the delivery does leave the handler. *)
Example other_delivery_exception_propagates :
  ending (lambda_handler Sample.hook Sample.loads
            (fun _ => Raised (Builtin TypeError))
            (Sample.event_of None (Render.dumps Sample.other_payload))
            Sample.context)
  = Raised (Builtin TypeError).
Proof. vm_compute. reflexivity. Qed.

(** ** Classification *)

Lemma eq_str_spec (v : pyval) (s : string) :
  Py.eq_str v s = true <-> v = PStr s.
Proof.
  unfold Py.eq_str, Py.is_str. split.
  - destruct v; try discriminate. intros H. apply String.eqb_eq in H. now subst.
  - intros ->. apply String.eqb_refl.
Qed.

(** On an object, the conditions of the handler pick the branch of the
    stated decision order. *)
Lemma select_branch_object
    (json_loads : string -> result pyval) (message : string)
    (payload : list (string * pyval)) :
  json_loads message = Ok (PDict payload) ->
  select_branch json_loads (PStr message) (PDict payload) =
    Ok (Spec.classify payload).
Proof.
  intros H. unfold select_branch, Spec.classify, is_cloudwatch_alarm. simpl.
  destruct (Py.assoc "AlarmName" payload) as [name | ] eqn:E.
  - rewrite H. simpl. rewrite E. reflexivity.
  - unfold Spec.audit_marker.
    destruct (Py.assoc "detail-type" payload) as [detail_type | ];
      [ destruct (Py.eq_str detail_type _) | ]; reflexivity.
Qed.

(** How the stated decision order reads on an object. *)
Lemma classify_cases (payload : list (string * pyval)) :
  (Py.assoc "AlarmName" payload <> None -> Spec.classify payload = AlarmState)
  /\ (Py.assoc "AlarmName" payload = None ->
      Py.assoc "detail-type" payload = Some (PStr Spec.audit_marker) ->
      Spec.classify payload = AuditEvent)
  /\ (Py.assoc "AlarmName" payload = None ->
      Py.assoc "detail-type" payload <> Some (PStr Spec.audit_marker) ->
      Spec.classify payload = Generic).
Proof.
  unfold Spec.classify. repeat split.
  - destruct (Py.assoc "AlarmName" payload); [ reflexivity | congruence ].
  - intros -> ->. reflexivity.
  - intros -> N.
    destruct (Py.assoc "detail-type" payload) as [v | ]; [ | reflexivity ].
    destruct (Py.eq_str v Spec.audit_marker) eqn:E; [ | reflexivity ].
    apply eq_str_spec in E. congruence.
Qed.

(** The handler on an unwrapped object: the event is logged, the card of the
    selected branch is built and delivered. *)
Lemma classification_cases_of_handler
    (HOOK_URL : string) (json_loads : string -> result pyval)
    (urlopen : request -> outcome unit)
    (event context sns_record : pyval) (message : string)
    (payload : list (string * pyval)) :
  unwraps_to json_loads event sns_record message (PDict payload) ->
  lambda_handler HOOK_URL json_loads urlopen event context =
  (logger_info ("Event: " ++ Render.dumps event) ;;
   data <- match Spec.classify payload with
           | AlarmState => alarm_data (PDict payload)
           | AuditEvent => audit_data (PDict payload)
           | Generic => generic_data sns_record
           end ;;
   deliver HOOK_URL urlopen (build_adaptive_card data)).
Proof.
  intros U.
  assert (D : json_loads message = Ok (PDict payload)).
  { destruct U as (? & ? & _ & _ & _ & _ & D). exact D. }
  rewrite lambda_handler_halves,
    (card_payload_of_unwrapped json_loads event sns_record message _ U),
    (select_branch_object json_loads message payload D).
  rewrite bind_assoc. apply bind_ext. intros _.
  rewrite bind_lift_ok, bind_assoc. apply bind_ext. intros data.
  apply bind_ret_l.
Qed.

(** C2, as amended. For every nested payload that decodes to a JSON object,
    classification follows the first-match order: an object with key
    AlarmName selects the alarm branch; otherwise one whose detail-type is
    exactly the audit marker selects the audit branch; every other object
    selects the generic branch, whose card is built from the record alone.
    The handler then delivers the card of the selected branch. *)
Theorem classification_first_match
    (HOOK_URL : string) (json_loads : string -> result pyval)
    (urlopen : request -> outcome unit)
    (event context sns_record : pyval) (message : string)
    (payload : list (string * pyval)) :
  unwraps_to json_loads event sns_record message (PDict payload) ->
  select_branch json_loads (PStr message) (PDict payload) =
    Ok (Spec.classify payload)
  /\ (Py.assoc "AlarmName" payload <> None -> Spec.classify payload = AlarmState)
  /\ (Py.assoc "AlarmName" payload = None ->
      Py.assoc "detail-type" payload = Some (PStr Spec.audit_marker) ->
      Spec.classify payload = AuditEvent)
  /\ (Py.assoc "AlarmName" payload = None ->
      Py.assoc "detail-type" payload <> Some (PStr Spec.audit_marker) ->
      Spec.classify payload = Generic)
  /\ lambda_handler HOOK_URL json_loads urlopen event context =
     (logger_info ("Event: " ++ Render.dumps event) ;;
      data <- match Spec.classify payload with
              | AlarmState => alarm_data (PDict payload)
              | AuditEvent => audit_data (PDict payload)
              | Generic => generic_data sns_record
              end ;;
      deliver HOOK_URL urlopen (build_adaptive_card data)).
Proof.
  intros U.
  assert (D : json_loads message = Ok (PDict payload)).
  { destruct U as (? & ? & _ & _ & _ & _ & D). exact D. }
  split; [ now apply select_branch_object | ].
  split; [ apply classify_cases | ].
  split; [ apply classify_cases | ].
  split; [ apply classify_cases | ].
  exact (classification_cases_of_handler HOOK_URL json_loads urlopen event
           context sns_record message payload U).
Qed.

Lemma classification_first_match_witness :
  let event := Sample.event_of None (Render.dumps Sample.other_payload) in
  select_branch Sample.loads (PStr (Render.dumps Sample.other_payload))
    Sample.other_payload = Ok Generic
  /\ lambda_handler Sample.hook Sample.loads Sample.delivered event Sample.context =
     (logger_info ("Event: " ++ Render.dumps event) ;;
      data <- generic_data (Sample.record_of None (Render.dumps Sample.other_payload)) ;;
      deliver Sample.hook Sample.delivered (build_adaptive_card data)).
Proof.
  cbv zeta.
  assert (U : unwraps_to Sample.loads
                (Sample.event_of None (Render.dumps Sample.other_payload))
                (Sample.record_of None (Render.dumps Sample.other_payload))
                (Render.dumps Sample.other_payload) Sample.other_payload).
  { do 2 eexists. repeat split; vm_compute; reflexivity. }
  destruct (classification_first_match Sample.hook Sample.loads Sample.delivered
              _ Sample.context _ _ _ U) as (S & _ & _ & _ & H).
  split; [ exact S | exact H ].
Defined.

(** C2, as stated, fails on a payload that is not an object: the Message 5
    decodes, to the number 5, which has neither the key nor the field; the
    membership test of line 81 raises [TypeError] instead of selecting the
    generic branch, and nothing is sent.  A JSON string or list reaches line
    110 and raises [AttributeError] there. *)
Lemma scalar_payload_not_generic :
  Sample.loads "5" = Ok (PInt 5)
  /\ Spec.classify_any (PInt 5) = Generic
  /\ select_branch Sample.loads (PStr "5") (PInt 5) = Raise TypeError
  /\ lambda_handler Sample.hook Sample.loads Sample.delivered
       (Sample.event_of None "5") Sample.context =
     ([Log INFO ("Event: " ++ Render.dumps (Sample.event_of None "5"))],
      Raised (Builtin TypeError))
  /\ Sample.loads "[1, 2]" = Ok (PList [PInt 1; PInt 2])
  /\ select_branch Sample.loads (PStr "[1, 2]") (PList [PInt 1; PInt 2]) =
     Raise AttributeError.
Proof. repeat split; vm_compute; reflexivity. Qed.

(** The three branches on sample objects. *)
Example alarm_object_selected :
  select_branch Sample.loads
    (PStr (Render.dumps Sample.marked_alarm_payload)) Sample.marked_alarm_payload
  = Ok AlarmState.
Proof. vm_compute. reflexivity. Qed.

Example audit_object_selected :
  select_branch Sample.loads
    (PStr (Render.dumps Sample.marker_only_payload)) Sample.marker_only_payload
  = Ok AuditEvent.
Proof. vm_compute. reflexivity. Qed.

(** ** The audit branch without its detail *)

(** With no errorMessage and no eventName the placeholders give the fallback
    title. *)
Lemma placeholders_of_detail (detail : list (string * pyval)) :
  Py.assoc "eventName" detail = None ->
  Py.assoc "errorMessage" detail = None ->
  exists t cd,
    parse_cloudtrail_event (PDict detail) = (t, Returned cd)
    /\ title cd = "Alert - Issue: UnknownEvent"
    /\ colour cd = "Attention".
Proof.
  intros N R. unfold parse_cloudtrail_event. rewrite bind_logger_info.
  simpl. rewrite N, R. simpl. do 2 eexists. repeat split.
Qed.

(** C10, as amended. For every decoded object without key AlarmName whose
    detail-type is the audit marker and which has no detail key, the handler
    raises [KeyError] for that key after logging the branch, before any card
    is built or delivered; the placeholders of the audit branch apply to the
    sub-fields of a detail object that exists. *)
Theorem missing_detail_raises
    (HOOK_URL : string) (json_loads : string -> result pyval)
    (urlopen : request -> outcome unit)
    (event context sns_record : pyval) (message : string)
    (payload : list (string * pyval)) :
  unwraps_to json_loads event sns_record message (PDict payload) ->
  Py.assoc "AlarmName" payload = None ->
  Py.assoc "detail-type" payload = Some (PStr Spec.audit_marker) ->
  Py.assoc "detail" payload = None ->
  lambda_handler HOOK_URL json_loads urlopen event context =
    ([Log INFO ("Event: " ++ Render.dumps event);
      Log INFO "Parsing CloudTrail event"],
     Raised (Builtin (KeyError (PStr "detail"))))
  /\ (forall detail,
         Py.assoc "eventName" detail = None ->
         Py.assoc "errorMessage" detail = None ->
         exists t cd,
           parse_cloudtrail_event (PDict detail) = (t, Returned cd)
           /\ title cd = "Alert - Issue: UnknownEvent"
           /\ colour cd = "Attention").
Proof.
  intros U A T D. split; [ | exact placeholders_of_detail ].
  rewrite (classification_cases_of_handler HOOK_URL json_loads urlopen
             event context sns_record message payload U).
  destruct (classify_cases payload) as (_ & C & _). rewrite (C A T).
  rewrite bind_logger_info. unfold audit_data. rewrite bind_logger_info.
  simpl. rewrite D. reflexivity.
Qed.

Lemma missing_detail_raises_witness :
  let event := Sample.event_of None (Render.dumps Sample.marker_only_payload) in
  lambda_handler Sample.hook Sample.loads Sample.delivered event Sample.context =
    ([Log INFO ("Event: " ++ Render.dumps event);
      Log INFO "Parsing CloudTrail event"],
     Raised (Builtin (KeyError (PStr "detail")))).
Proof.
  cbv zeta.
  assert (U : unwraps_to Sample.loads
                (Sample.event_of None (Render.dumps Sample.marker_only_payload))
                (Sample.record_of None (Render.dumps Sample.marker_only_payload))
                (Render.dumps Sample.marker_only_payload)
                Sample.marker_only_payload).
  { do 2 eexists. repeat split; vm_compute; reflexivity. }
  apply (missing_detail_raises Sample.hook Sample.loads Sample.delivered
           _ Sample.context _ _ _ U); reflexivity.
Defined.

(** C10, as stated, fails on an object that carries the audit marker and no
    detail but also the key AlarmName: the first-match order takes the alarm
    branch, which never reads detail, and the card is delivered. *)
Lemma marked_alarm_is_delivered :
  let event := Sample.event_of None (Render.dumps Sample.marked_alarm_payload) in
  let run := lambda_handler Sample.hook Sample.loads Sample.delivered
               event Sample.context in
  Sample.loads (Render.dumps Sample.marked_alarm_payload) =
    Ok Sample.marked_alarm_payload
  /\ Py.getitem Sample.marked_alarm_payload "detail-type" =
     Ok (PStr "AWS Service Event via CloudTrail")
  /\ Py.getitem Sample.marked_alarm_payload "detail" =
     Raise (KeyError (PStr "detail"))
  /\ ending run = Returned tt
  /\ posts (trace run) =
     [ request_of Sample.hook
         (build_adaptive_card
            {| colour := "Attention";
               title := "Red Alert - cpu-high";
               text := "**cpu-high** changed from **OK** to **ALARM**"
                         ++ newline ++ newline ++ "Reason: Threshold Crossed" |}) ].
Proof. repeat split; vm_compute; reflexivity. Qed.

(** ** The alarm branch *)

Lemma table_find_some (new_state alarm_name : pyval)
    (table : list ((string * string) * card_data)) (entry : card_data) :
  table_find new_state alarm_name table = Some entry ->
  exists state name,
    In ((state, name), entry) table
    /\ new_state = PStr state /\ alarm_name = PStr name.
Proof.
  induction table as [ | [[state name] e] table IH]; simpl; [ discriminate | ].
  unfold key_eqb. simpl.
  destruct (Py.eq_str new_state state) eqn:E1;
    [ destruct (Py.eq_str alarm_name name) eqn:E2 | ]; simpl.
  - intros H. injection H as <-. apply eq_str_spec in E1, E2.
    exists state, name. auto.
  - intros H. destruct (IH H) as (s & n & I & ? & ?). exists s, n. auto.
  - intros H. destruct (IH H) as (s & n & I & ? & ?). exists s, n. auto.
Qed.

(** The keys of the table are pairwise distinct, so an entry that is in the
    table is the one a lookup of its key finds. *)
Lemma overrides_find_entry (state name : string) (entry : card_data) :
  In ((state, name), entry) overrides ->
  table_find (PStr state) (PStr name) overrides = Some entry.
Proof.
  unfold overrides. simpl.
  intros [H | [H | []]]; injection H as <- <- <-; reflexivity.
Qed.

(** What the alarm branch does once its four fields are read and the new
    state is a string. *)
Lemma alarm_data_fields (payload : list (string * pyval))
    (alarm_name old_state reason : pyval) (new_state : string) :
  Py.assoc "AlarmName" payload = Some alarm_name ->
  Py.assoc "OldStateValue" payload = Some old_state ->
  Py.assoc "NewStateValue" payload = Some (PStr new_state) ->
  Py.assoc "NewStateReason" payload = Some reason ->
  Py.hashable alarm_name = true ->
  alarm_data (PDict payload) =
    ([Log INFO ("CloudWatch Alarm: " ++ Render.dumps (PDict payload))],
     Returned
       match table_find (PStr new_state) alarm_name overrides with
       | Some entry => entry
       | None =>
           Spec.alarm_default (Render.str alarm_name) (Render.str old_state)
             new_state (Render.str reason)
       end).
Proof.
  intros A O N R H. unfold alarm_data, Py.getitem.
  rewrite A, O, N, R. rewrite !bind_lift_ok, bind_logger_info.
  simpl py_lower. rewrite bind_lift_ok. cbv zeta.
  unfold overrides_get. rewrite H. simpl andb. cbv iota.
  unfold lift, trace, ending, fst, snd. f_equal. f_equal.
  destruct (table_find (PStr new_state) alarm_name overrides); [ reflexivity | ].
  unfold Spec.alarm_default. simpl Render.str.
  destruct (String.eqb (Str.lower new_state) "alarm"); reflexivity.
Qed.

(** C3. In the alarm branch, for every new-state string and alarm name: if
    the pair is the key of an entry of the override table, compared exactly
    and with case, the card is that entry, all three fields, whatever the
    computed colour; if the pair is the key of no entry, the card is the
    computed default, unchanged. *)
Theorem override_precedence (payload : list (string * pyval))
    (alarm_name old_state reason : pyval) (new_state : string) :
  Py.assoc "AlarmName" payload = Some alarm_name ->
  Py.assoc "OldStateValue" payload = Some old_state ->
  Py.assoc "NewStateValue" payload = Some (PStr new_state) ->
  Py.assoc "NewStateReason" payload = Some reason ->
  Py.hashable alarm_name = true ->
  let logged := [Log INFO ("CloudWatch Alarm: " ++ Render.dumps (PDict payload))] in
  (forall name entry,
      In ((new_state, name), entry) overrides ->
      alarm_name = PStr name ->
      alarm_data (PDict payload) = (logged, Returned entry))
  /\ ((forall name entry,
          In ((new_state, name), entry) overrides -> alarm_name <> PStr name) ->
      alarm_data (PDict payload) =
        (logged,
         Returned (Spec.alarm_default (Render.str alarm_name)
                     (Render.str old_state) new_state (Render.str reason)))).
Proof.
  intros A O N R H logged. subst logged.
  rewrite (alarm_data_fields payload alarm_name old_state reason new_state A O N R H).
  split.
  - intros name entry I ->. now rewrite (overrides_find_entry _ _ _ I).
  - intros none.
    destruct (table_find (PStr new_state) alarm_name overrides) as [entry | ] eqn:E;
      [ | reflexivity ].
    apply table_find_some in E. destruct E as (state & name & I & S & ->).
    injection S as <-. now elim (none name entry I).
Qed.

Lemma override_precedence_witness :
  alarm_data (Sample.alarm_payload "my-alarm-name" "OK") =
    ([Log INFO ("CloudWatch Alarm: "
                  ++ Render.dumps (Sample.alarm_payload "my-alarm-name" "OK"))],
     Returned {| colour := "Good";
                 title := "The bad thing stopped happening";
                 text := "These are the specific details of how we know the bad thing stopped happening" |})
  /\ alarm_data (Sample.alarm_payload "my-alarm-name" "alarm") =
    ([Log INFO ("CloudWatch Alarm: "
                  ++ Render.dumps (Sample.alarm_payload "my-alarm-name" "alarm"))],
     Returned {| colour := "Attention";
                 title := "Red Alert - my-alarm-name";
                 text := "**my-alarm-name** changed from **INSUFFICIENT_DATA** to **alarm**"
                           ++ newline ++ newline ++ "Reason: Threshold Crossed" |}).
Proof.
  split.
  - apply (proj1 (override_precedence
                    (Sample.alarm_fields "my-alarm-name" "OK")
                    (PStr "my-alarm-name")
                    (PStr "INSUFFICIENT_DATA") (PStr "Threshold Crossed") "OK"
                    eq_refl eq_refl eq_refl eq_refl eq_refl)
             "my-alarm-name").
    + right. left. reflexivity.
    + reflexivity.
  - apply (proj2 (override_precedence
                    (Sample.alarm_fields "my-alarm-name" "alarm")
                    (PStr "my-alarm-name")
                    (PStr "INSUFFICIENT_DATA") (PStr "Threshold Crossed") "alarm"
                    eq_refl eq_refl eq_refl eq_refl eq_refl)).
    intros name entry [H | [H | []]]; discriminate H.
Defined.

(** The override of a matching pair wins over a computed card that differs
    from it in every field. *)
Example override_differs_from_default :
  Spec.alarm_default "my-alarm-name" "OK" "ALARM" "r" <>
  {| colour := "Attention";
     title := "Red Alert - A bad thing happened.";
     text := "These are the specific details of the bad thing." |}.
Proof. discriminate. Qed.




(** Mixed case counts as the alarm state for the colour, not for the lookup. *)
Example mixed_case_alarm :
  exists t cd,
    alarm_data (Sample.alarm_payload "my-alarm-name" "Alarm") = (t, Returned cd)
    /\ colour cd = "Attention"
    /\ title cd = "Red Alert - my-alarm-name".
Proof. do 2 eexists. vm_compute. repeat split. Qed.

(** ** The audit branch *)

Lemma before_space_word (word rest : string) :
  Str.has_char " " word = false ->
  (rest = EmptyString \/ exists r, rest = String " " r) ->
  before_space (word ++ rest) = word.
Proof.
  intros W R. induction word as [ | c w IH].
  - destruct R as [-> | [r ->]]; reflexivity.
  - cbn [Str.has_char] in W. cbn [append before_space].
    rewrite (Ascii.eqb_sym " " c) in W.
    destruct (Ascii.eqb c " "); [ discriminate | ]. cbn [orb] in W.
    now rewrite (IH W).
Qed.

(** Joining separator-free strings and splitting again gives them back. *)
Lemma split_join (c : ascii) (l : list string) :
  l <> [] ->
  Forall (fun s => Str.has_char c s = false) l ->
  Str.split c (Str.join (String c EmptyString) l) = l.
Proof.
  induction l as [ | x [ | y r] IH]; intros N F; [ now elim N | | ].
  - inversion F; subst. simpl. now apply split_none.
  - inversion F; subst.
    change (Str.join (String c EmptyString) (x :: y :: r))
      with (x ++ String c (Str.join (String c EmptyString) (y :: r))).
    rewrite split_cons by assumption. f_equal. apply IH; [ discriminate | assumption ].
Qed.

Lemma seventh_segment_has_colon (s segment : string) :
  nth_error (Str.split ":" s) 6 = Some segment -> Str.has_char ":" s = true.
Proof.
  intros H. assert (L : 6 < length (Str.split ":" s)).
  { apply nth_error_Some. congruence. }
  rewrite split_length in L. rewrite has_char_count.
  destruct (count_char ":" s); [ lia | reflexivity ].
Qed.

(** Line 28 on a string. *)
Lemma cloudtrail_title_string (reason : string) (alarm_name : pyval) :
  cloudtrail_title (PStr reason) alarm_name =
  if Str.has_char ":" reason then
    match nth_error (Str.split ":" reason) 6 with
    | Some segment =>
        Ok ("Alert - " ++ before_space segment ++ " - Issue: "
              ++ Render.str alarm_name)
    | None => Raise IndexError
    end
  else Ok ("Alert - Issue: " ++ Render.str alarm_name).
Proof.
  unfold cloudtrail_title. simpl Py.contains. rewrite contains_char.
  destruct (Str.has_char ":" reason); [ | reflexivity ].
  simpl py_split. unfold py_index at 1.
  destruct (nth_error (Str.split ":" reason) 6) as [segment | ]; [ | reflexivity ].
  now rewrite split_space_head.
Qed.

(** The audit formatter on a detail object whose errorMessage is a string. *)
Lemma parse_cloudtrail_event_string (detail : list (string * pyval))
    (error_message : string) :
  Py.assoc "errorMessage" detail = Some (PStr error_message) ->
  parse_cloudtrail_event (PDict detail) =
  (logger_info ("CloudTrail detail: " ++ Render.dumps (PDict detail)) ;;
   title <- lift (cloudtrail_title (PStr error_message)
                    match Py.assoc "eventName" detail with
                    | Some v => v
                    | None => PStr "UnknownEvent"
                    end) ;;
   ret {| colour := "Attention";
          title := title;
          text := Render.dumps_indent 2
                    (PDict [ ("Subject", match Py.assoc "eventName" detail with
                                         | Some v => v
                                         | None => PStr "UnknownEvent"
                                         end);
                             ("Type", match Py.assoc "eventType" detail with
                                      | Some v => v
                                      | None => PStr "Unknown"
                                      end);
                             ("MessageId", match Py.assoc "eventID" detail with
                                           | Some v => v
                                           | None => PStr "Unknown"
                                           end);
                             ("Message", PStr error_message);
                             ("Timestamp", match Py.assoc "eventTime" detail with
                                           | Some v => v
                                           | None => PStr "Unknown"
                                           end) ]) |}).
Proof.
  intros E. unfold parse_cloudtrail_event, Py.get. rewrite E.
  apply bind_ext. intros _. rewrite !bind_lift_ok.
  apply bind_ext. intros t. rewrite !bind_lift_ok. reflexivity.
Qed.

(** C5, as amended. In the audit branch, for every errorMessage with at
    least 7 colon-delimited segments the title is Alert - faultCode - Issue:
    eventName, where faultCode is the part of the 7th segment before its
    first space character (the whole segment when it has no space, nothing
    when it begins with one); for every errorMessage with no colon the title
    is Alert - Issue: eventName. *)
Theorem audit_title_format (detail : list (string * pyval))
    (error_message : string) :
  Py.assoc "errorMessage" detail = Some (PStr error_message) ->
  (forall segment,
      nth_error (Str.split ":" error_message) 6 = Some segment ->
      audit_title_of (PDict detail) =
        Some ("Alert - " ++ before_space segment ++ " - Issue: "
                ++ shown_event_name detail))
  /\ (Str.has_char ":" error_message = false ->
      audit_title_of (PDict detail) =
        Some ("Alert - Issue: " ++ shown_event_name detail)).
Proof.
  intros E. unfold audit_title_of, shown_event_name.
  rewrite (parse_cloudtrail_event_string detail error_message E).
  rewrite bind_logger_info, cloudtrail_title_string. split.
  - intros segment S. rewrite (seventh_segment_has_colon _ _ S), S. reflexivity.
  - intros ->. reflexivity.
Qed.

Lemma audit_title_format_witness :
  audit_title_of (PDict [ ("eventName", PStr "E1");
                          ("errorMessage", PStr "a:b:c:d:e:f:token extra") ]) =
    Some "Alert - token - Issue: E1"
  /\ audit_title_of (PDict [ ("eventName", PStr "E2");
                             ("errorMessage", PStr "access denied") ]) =
    Some "Alert - Issue: E2".
Proof.
  split.
  - apply (proj1 (audit_title_format
                    [ ("eventName", PStr "E1");
                      ("errorMessage", PStr "a:b:c:d:e:f:token extra") ]
                    "a:b:c:d:e:f:token extra" eq_refl) "token extra").
    reflexivity.
  - apply (proj2 (audit_title_format
                    [ ("eventName", PStr "E2");
                      ("errorMessage", PStr "access denied") ]
                    "access denied" eq_refl)).
    reflexivity.
Defined.

(** C5, as stated, fails where white space other than a single space, or a
    leading space, delimits the token: with a tab after the token the first
    whitespace-delimited token is tok and the handler keeps the tab and what
    follows it; with a leading space the token is token and the handler has
    the empty string. *)
Lemma fault_code_is_not_first_token :
  let tabbed := "a:b:c:d:e:f:tok" ++ Sample.tab ++ "extra" in
  Spec.audit_title tabbed "E1" = Some "Alert - tok - Issue: E1"
  /\ audit_title_of (PDict [ ("eventName", PStr "E1");
                             ("errorMessage", PStr tabbed) ]) =
     Some ("Alert - tok" ++ Sample.tab ++ "extra - Issue: E1")
  /\ Spec.audit_title "a:b:c:d:e:f: token extra" "E1" =
     Some "Alert - token - Issue: E1"
  /\ audit_title_of (PDict [ ("eventName", PStr "E1");
                             ("errorMessage", PStr "a:b:c:d:e:f: token extra") ]) =
     Some "Alert -  - Issue: E1".
Proof. repeat split; vm_compute; reflexivity. Qed.

(** On the examples of the specification both readings agree. *)
Example audit_title_examples :
  Spec.audit_title "a:b:c:d:e:f:token extra" "E1" = Some "Alert - token - Issue: E1"
  /\ Spec.audit_title "access denied" "E2" = Some "Alert - Issue: E2".
Proof. split; reflexivity. Qed.

(** The 7th colon-delimited segment of a message written as its segments. *)
Lemma seventh_segment_of_join (segments : list string) (segment : string) :
  Forall (fun s => Str.has_char ":" s = false) segments ->
  nth_error segments 6 = Some segment ->
  nth_error (Str.split ":" (Str.join ":" segments)) 6 = Some segment.
Proof.
  intros F N. rewrite split_join; [ exact N | | exact F ].
  intros ->. discriminate N.
Qed.

(** C6, as amended. In the audit branch, for every errorMessage that
    contains a colon and has fewer than 7 colon-delimited segments,
    formatting fails with [IndexError]: line 28 does not check the number of
    segments, and taking the 7th of them is the step that raises, right after
    the detail is logged.  No card data is produced, corrupted or not, and
    the handler ends with that exception without sending anything. *)
Theorem short_error_message_fails (detail : list (string * pyval))
    (error_message : string) :
  Py.assoc "errorMessage" detail = Some (PStr error_message) ->
  Str.has_char ":" error_message = true ->
  length (Str.split ":" error_message) < 7 ->
  parse_cloudtrail_event (PDict detail) =
    ([Log INFO ("CloudTrail detail: " ++ Render.dumps (PDict detail))],
     Raised (Builtin IndexError))
  /\ forall HOOK_URL json_loads urlopen event context sns_record message payload,
       unwraps_to json_loads event sns_record message (PDict payload) ->
       Py.assoc "AlarmName" payload = None ->
       Py.assoc "detail-type" payload = Some (PStr Spec.audit_marker) ->
       Py.assoc "detail" payload = Some (PDict detail) ->
       lambda_handler HOOK_URL json_loads urlopen event context =
         ([Log INFO ("Event: " ++ Render.dumps event);
           Log INFO "Parsing CloudTrail event";
           Log INFO ("CloudTrail detail: " ++ Render.dumps (PDict detail))],
          Raised (Builtin IndexError)).
Proof.
  intros E C L.
  assert (P : parse_cloudtrail_event (PDict detail) =
              ([Log INFO ("CloudTrail detail: " ++ Render.dumps (PDict detail))],
               Raised (Builtin IndexError))).
  { rewrite (parse_cloudtrail_event_string detail error_message E).
    rewrite bind_logger_info, cloudtrail_title_string, C.
    destruct (nth_error (Str.split ":" error_message) 6) as [segment | ] eqn:N;
      [ | reflexivity ].
    assert (6 < length (Str.split ":" error_message)); [ | lia ].
    apply nth_error_Some. congruence. }
  split; [ exact P | ].
  intros HOOK_URL json_loads urlopen event context sns_record message payload U A T D.
  rewrite (classification_cases_of_handler HOOK_URL json_loads urlopen
             event context sns_record message payload U).
  destruct (classify_cases payload) as (_ & K & _). rewrite (K A T).
  rewrite bind_logger_info. unfold audit_data. rewrite bind_logger_info.
  unfold Py.getitem. rewrite D, bind_lift_ok, P. reflexivity.
Qed.

Lemma short_error_message_fails_witness :
  parse_cloudtrail_event
    (PDict [ ("eventName", PStr "E1"); ("errorMessage", PStr "denied: no role") ]) =
    ([Log INFO ("CloudTrail detail: "
                  ++ Render.dumps
                       (PDict [ ("eventName", PStr "E1");
                                ("errorMessage", PStr "denied: no role") ]))],
     Raised (Builtin IndexError)).
Proof.
  apply (short_error_message_fails
           [ ("eventName", PStr "E1"); ("errorMessage", PStr "denied: no role") ]
           "denied: no role").
  - reflexivity.
  - reflexivity.
  - simpl. lia.
Defined.

(** The whole handler on such a message: three log lines, the exception, and
    no request. *)
Example short_error_message_run :
  let run := lambda_handler Sample.hook Sample.loads Sample.delivered
               (Sample.event_of None
                  (Render.dumps
                     (Sample.audit_payload
                        [ ("eventName", PStr "E1");
                          ("errorMessage", PStr "denied: no role") ])))
               Sample.context in
  ending run = Raised (Builtin IndexError)
  /\ posts (trace run) = []
  /\ length (trace run) = 3.
Proof. vm_compute. repeat split. Qed.

(** ** The generic branch *)

(** The record of an unwrapped event is an object: its Message was read by
    key. *)
Lemma unwrapped_record_is_object
    (json_loads : string -> result pyval)
    (event sns_record : pyval) (message : string) (payload : pyval) :
  unwraps_to json_loads event sns_record message payload ->
  exists record, sns_record = PDict record.
Proof.
  intros (_ & _ & _ & _ & _ & M & _).
  destruct sns_record; try discriminate M. eexists. reflexivity.
Qed.

(** The text of the generic card for a record without Subject, line by line. *)
Example generic_card_text :
  exists t cd,
    generic_data (Sample.record_of None "plain") = (t, Returned cd)
    /\ title cd = "Alert - No Subject"
    /\ text cd =
       Str.join newline
         [ "{";
           "  " ++ key_text "Subject" ++ "null,";
           "  " ++ key_text "Type" ++ Render.json_str "Notification" ++ ",";
           "  " ++ key_text "MessageId"
             ++ Render.json_str "95df01b4-ee98-5cb9-9903-4c221d41eb5e" ++ ",";
           "  " ++ key_text "TopicArn"
             ++ Render.json_str "arn:aws:sns:eu-west-1:123456789012:alerts" ++ ",";
           "  " ++ key_text "Message" ++ Render.json_str "plain" ++ ",";
           "  " ++ key_text "Timestamp"
             ++ Render.json_str "2024-01-01T00:00:00.000Z";
           "}" ].
Proof. do 2 eexists. vm_compute. repeat split. Qed.

(** A Subject that is present but null is shown as Python prints [None]. *)
Example null_subject_title :
  exists t cd,
    generic_data (Sample.record_of (Some PNone) "plain") = (t, Returned cd)
    /\ title cd = "Alert - None".
Proof. do 2 eexists. vm_compute. split; reflexivity. Qed.

(** * Further properties of the handler *)

(** A computation after a log line. *)
Lemma logged_then {A : Type} (msg : string) (m : M A)
    (t : list effect) (r : outcome A) :
  m = (t, r) -> (logger_info msg ;; m) = (Log INFO msg :: t, r).
Proof. intros ->. reflexivity. Qed.

(** ** The helper of line 81 *)

Lemma contains_never_decode_error (s : string) (v : pyval) :
  Py.contains s v <> Raise JSONDecodeError.
Proof. destruct v; discriminate. Qed.

(** X1. [is_cloudwatch_alarm] answers False on a message that does not
    decode, and on a message that decodes it answers exactly the membership
    test on the decoded value, raising where that test raises.  So on line 81
    its call never changes what the membership test before it decided: the
    branch is a function of the decoded payload alone. *)
Theorem alarm_helper_agrees_with_membership
    (json_loads : string -> result pyval) (message : string) :
  (json_loads message = Raise JSONDecodeError ->
   is_cloudwatch_alarm json_loads (PStr message) = Ok false)
  /\ (forall message_json,
         json_loads message = Ok message_json ->
         is_cloudwatch_alarm json_loads (PStr message) =
           Py.contains "AlarmName" message_json
         /\ select_branch json_loads (PStr message) message_json =
            select_by_payload message_json).
Proof.
  split.
  - intros H. unfold is_cloudwatch_alarm. simpl. now rewrite H.
  - intros message_json H.
    assert (A : is_cloudwatch_alarm json_loads (PStr message) =
                Py.contains "AlarmName" message_json).
    { unfold is_cloudwatch_alarm. simpl loads. rewrite H.
      pose proof (contains_never_decode_error "AlarmName" message_json) as N.
      destruct (Py.contains "AlarmName" message_json) as [b | e];
        [ reflexivity | ].
      destruct e; try reflexivity. now elim N. }
    split; [ exact A | ].
    unfold select_branch, select_by_payload. rewrite A.
    destruct (Py.contains "AlarmName" message_json) as [[ | ] | e]; reflexivity.
Qed.

(** ** The envelope *)

(** X2. The ways the envelope can fail before the message is decoded: an
    event without Records, a first record without Sns and a record without
    Message each raise [KeyError] for that key, and a Message that is not a
    string raises [TypeError] in [json.loads]; every time the only effect is
    the log line for the event. *)
Theorem envelope_failures
    (HOOK_URL : string) (json_loads : string -> result pyval)
    (urlopen : request -> outcome unit)
    (event : list (string * pyval)) (context : pyval) :
  let run := lambda_handler HOOK_URL json_loads urlopen (PDict event) context in
  let logged := [Log INFO ("Event: " ++ Render.dumps (PDict event))] in
  (Py.assoc "Records" event = None ->
   run = (logged, Raised (Builtin (KeyError (PStr "Records")))))
  /\ (forall record rest,
         Py.assoc "Records" event = Some (PList (PDict record :: rest)) ->
         (Py.assoc "Sns" record = None ->
          run = (logged, Raised (Builtin (KeyError (PStr "Sns")))))
         /\ (forall sns_record,
                Py.assoc "Sns" record = Some (PDict sns_record) ->
                (Py.assoc "Message" sns_record = None ->
                 run = (logged, Raised (Builtin (KeyError (PStr "Message")))))
                /\ (forall message,
                       Py.assoc "Message" sns_record = Some message ->
                       is_string message = false ->
                       run = (logged, Raised (Builtin TypeError))))).
Proof.
  cbv zeta. unfold lambda_handler. split.
  - intros H. apply logged_then. unfold Py.getitem. now rewrite H.
  - intros record rest H. split.
    + intros S. apply logged_then. unfold Py.getitem at 1.
      rewrite H, bind_lift_ok. simpl Py.getitem0. rewrite bind_lift_ok.
      unfold Py.getitem at 1. now rewrite S.
    + intros sns_record S. split.
      * intros N. apply logged_then. unfold Py.getitem at 1.
        rewrite H, bind_lift_ok. simpl Py.getitem0. rewrite bind_lift_ok.
        unfold Py.getitem at 1. rewrite S, bind_lift_ok.
        unfold Py.getitem at 1. now rewrite N.
      * intros message N T. apply logged_then. unfold Py.getitem at 1.
        rewrite H, bind_lift_ok. simpl Py.getitem0. rewrite bind_lift_ok.
        unfold Py.getitem at 1. rewrite S, bind_lift_ok.
        unfold Py.getitem at 1. rewrite N, bind_lift_ok.
        destruct message; try discriminate T; reflexivity.
Qed.

(** X3. Only the first record counts: two events whose record lists begin
    with the same record end the same way, send the same requests and, after
    the line that logs the event itself, log the same lines. *)
Theorem only_first_record_counts
    (HOOK_URL : string) (json_loads : string -> result pyval)
    (urlopen : request -> outcome unit)
    (event event' context record : pyval) (rest rest' : list pyval) :
  Py.getitem event "Records" = Ok (PList (record :: rest)) ->
  Py.getitem event' "Records" = Ok (PList (record :: rest')) ->
  let run := lambda_handler HOOK_URL json_loads urlopen event context in
  let run' := lambda_handler HOOK_URL json_loads urlopen event' context in
  ending run = ending run'
  /\ posts (trace run) = posts (trace run')
  /\ tl (trace run) = tl (trace run').
Proof.
  intros H H'. cbv zeta. unfold lambda_handler.
  rewrite !bind_logger_info, H, H', !bind_lift_ok. simpl Py.getitem0.
  rewrite !bind_lift_ok. repeat split.
Qed.

Lemma only_first_record_counts_witness :
  let first := PDict [ ("Sns", Sample.record_of None
                                 (Render.dumps Sample.other_payload)) ] in
  let second := PDict [ ("Sns", Sample.record_of None "5") ] in
  let run := lambda_handler Sample.hook Sample.loads Sample.delivered
               (PDict [ ("Records", PList [first; second]) ]) Sample.context in
  let run' := lambda_handler Sample.hook Sample.loads Sample.delivered
                (PDict [ ("Records", PList [first]) ]) Sample.context in
  ending run = ending run'
  /\ posts (trace run) = posts (trace run')
  /\ tl (trace run) = tl (trace run').
Proof.
  cbv zeta.
  apply (only_first_record_counts Sample.hook Sample.loads Sample.delivered
           _ _ Sample.context
           (PDict [ ("Sns", Sample.record_of None
                              (Render.dumps Sample.other_payload)) ])
           [ PDict [ ("Sns", Sample.record_of None "5") ] ] []);
    reflexivity.
Defined.

(** ** More on the alarm branch *)

(** The handler on an unwrapped object that has the key AlarmName. *)
Lemma handler_on_alarm_object
    (HOOK_URL : string) (json_loads : string -> result pyval)
    (urlopen : request -> outcome unit)
    (event context sns_record : pyval) (message : string)
    (payload : list (string * pyval)) :
  unwraps_to json_loads event sns_record message (PDict payload) ->
  Py.assoc "AlarmName" payload <> None ->
  lambda_handler HOOK_URL json_loads urlopen event context =
  (logger_info ("Event: " ++ Render.dumps event) ;;
   data <- alarm_data (PDict payload) ;;
   deliver HOOK_URL urlopen (build_adaptive_card data)).
Proof.
  intros U A.
  rewrite (classification_cases_of_handler HOOK_URL json_loads urlopen
             event context sns_record message payload U).
  destruct (classify_cases payload) as (C & _). now rewrite (C A).
Qed.

(** The alarm branch stops at the first key it does not find. *)
Lemma alarm_data_first_absent (payload : list (string * pyval)) (k : string) :
  Py.assoc "AlarmName" payload <> None ->
  first_absent alarm_state_keys payload = Some k ->
  alarm_data (PDict payload) = ([], Raised (Builtin (KeyError (PStr k)))).
Proof.
  intros A F. unfold alarm_data, Py.getitem.
  destruct (Py.assoc "AlarmName" payload) as [a | ]; [ | now elim A ].
  rewrite bind_lift_ok. unfold alarm_state_keys in F. simpl in F.
  destruct (Py.assoc "OldStateValue" payload) as [o | ];
    [ rewrite bind_lift_ok | now injection F as <- ].
  destruct (Py.assoc "NewStateValue" payload) as [n | ];
    [ rewrite bind_lift_ok | now injection F as <- ].
  destruct (Py.assoc "NewStateReason" payload) as [r | ];
    [ discriminate F | now injection F as <- ].
Qed.

(** X4. An alarm object that lacks one of OldStateValue, NewStateValue and
    NewStateReason: the handler raises [KeyError] for the first of them, in
    that order, that is absent; the alarm is not logged, no card is built and
    nothing is sent. *)
Theorem alarm_missing_field
    (HOOK_URL : string) (json_loads : string -> result pyval)
    (urlopen : request -> outcome unit)
    (event context sns_record : pyval) (message : string)
    (payload : list (string * pyval)) (k : string) :
  unwraps_to json_loads event sns_record message (PDict payload) ->
  Py.assoc "AlarmName" payload <> None ->
  first_absent alarm_state_keys payload = Some k ->
  lambda_handler HOOK_URL json_loads urlopen event context =
    ([Log INFO ("Event: " ++ Render.dumps event)],
     Raised (Builtin (KeyError (PStr k)))).
Proof.
  intros U A F.
  rewrite (handler_on_alarm_object HOOK_URL json_loads urlopen event context
             sns_record message payload U A).
  apply logged_then. now rewrite (alarm_data_first_absent payload k A F).
Qed.

Lemma alarm_missing_field_witness :
  let payload := PDict [ ("AlarmName", PStr "cpu-high");
                         ("OldStateValue", PStr "OK");
                         ("NewStateReason", PStr "Threshold Crossed") ] in
  let event := Sample.event_of None (Render.dumps payload) in
  lambda_handler Sample.hook Sample.loads Sample.delivered event Sample.context =
    ([Log INFO ("Event: " ++ Render.dumps event)],
     Raised (Builtin (KeyError (PStr "NewStateValue")))).
Proof.
  cbv zeta.
  eapply (alarm_missing_field Sample.hook Sample.loads Sample.delivered
            _ Sample.context _ _
            [ ("AlarmName", PStr "cpu-high");
              ("OldStateValue", PStr "OK");
              ("NewStateReason", PStr "Threshold Crossed") ]).
  - do 2 eexists. repeat split; vm_compute; reflexivity.
  - discriminate.
  - reflexivity.
Defined.

(** X5. An alarm object with all four fields whose NewStateValue is not a
    string raises [AttributeError] at [.lower()], and one whose new state is
    a string but whose AlarmName is a list or an object raises [TypeError]
    when the override table is looked up; both happen after the alarm has
    been logged, and no card data comes out. *)
Theorem alarm_field_types (payload : list (string * pyval))
    (alarm_name old_state new_state reason : pyval) :
  Py.assoc "AlarmName" payload = Some alarm_name ->
  Py.assoc "OldStateValue" payload = Some old_state ->
  Py.assoc "NewStateValue" payload = Some new_state ->
  Py.assoc "NewStateReason" payload = Some reason ->
  let logged := [Log INFO ("CloudWatch Alarm: " ++ Render.dumps (PDict payload))] in
  (is_string new_state = false ->
   alarm_data (PDict payload) = (logged, Raised (Builtin AttributeError)))
  /\ (is_string new_state = true ->
      Py.hashable alarm_name = false ->
      alarm_data (PDict payload) = (logged, Raised (Builtin TypeError))).
Proof.
  intros A O N R. cbv zeta. unfold alarm_data, Py.getitem.
  rewrite A, O, N, R, !bind_lift_ok. split.
  - intros S. apply logged_then. destruct new_state; try discriminate S; reflexivity.
  - intros S H. apply logged_then.
    destruct new_state; try discriminate S.
    simpl py_lower. rewrite bind_lift_ok. cbv zeta.
    unfold overrides_get. rewrite H. reflexivity.
Qed.

Lemma alarm_field_types_witness :
  alarm_data (PDict [ ("AlarmName", PStr "cpu-high");
                      ("OldStateValue", PStr "OK");
                      ("NewStateValue", PInt 2);
                      ("NewStateReason", PStr "r") ]) =
    ([Log INFO ("CloudWatch Alarm: "
                  ++ Render.dumps (PDict [ ("AlarmName", PStr "cpu-high");
                                           ("OldStateValue", PStr "OK");
                                           ("NewStateValue", PInt 2);
                                           ("NewStateReason", PStr "r") ]))],
     Raised (Builtin AttributeError))
  /\ alarm_data (PDict [ ("AlarmName", PList [PStr "cpu-high"]);
                         ("OldStateValue", PStr "OK");
                         ("NewStateValue", PStr "ALARM");
                         ("NewStateReason", PStr "r") ]) =
    ([Log INFO ("CloudWatch Alarm: "
                  ++ Render.dumps (PDict [ ("AlarmName", PList [PStr "cpu-high"]);
                                           ("OldStateValue", PStr "OK");
                                           ("NewStateValue", PStr "ALARM");
                                           ("NewStateReason", PStr "r") ]))],
     Raised (Builtin TypeError)).
Proof.
  split.
  - apply (proj1 (alarm_field_types
                    [ ("AlarmName", PStr "cpu-high");
                      ("OldStateValue", PStr "OK");
                      ("NewStateValue", PInt 2);
                      ("NewStateReason", PStr "r") ]
                    _ _ _ _ eq_refl eq_refl eq_refl eq_refl)).
    reflexivity.
  - apply (proj2 (alarm_field_types
                    [ ("AlarmName", PList [PStr "cpu-high"]);
                      ("OldStateValue", PStr "OK");
                      ("NewStateValue", PStr "ALARM");
                      ("NewStateReason", PStr "r") ]
                    _ _ _ _ eq_refl eq_refl eq_refl eq_refl));
      reflexivity.
Defined.

(** X6. The override table reaches one alarm only: whenever the alarm name
    is not the string my-alarm-name, or the new state is neither exactly
    ALARM nor exactly OK, the card is the computed one. *)
Theorem overrides_reach_one_alarm (payload : list (string * pyval))
    (alarm_name old_state reason : pyval) (new_state : string) :
  Py.assoc "AlarmName" payload = Some alarm_name ->
  Py.assoc "OldStateValue" payload = Some old_state ->
  Py.assoc "NewStateValue" payload = Some (PStr new_state) ->
  Py.assoc "NewStateReason" payload = Some reason ->
  Py.hashable alarm_name = true ->
  alarm_name <> PStr "my-alarm-name"
  \/ (new_state <> "ALARM" /\ new_state <> "OK") ->
  alarm_data (PDict payload) =
    ([Log INFO ("CloudWatch Alarm: " ++ Render.dumps (PDict payload))],
     Returned (Spec.alarm_default (Render.str alarm_name) (Render.str old_state)
                 new_state (Render.str reason))).
Proof.
  intros A O N R H C.
  rewrite (alarm_data_fields payload alarm_name old_state reason new_state A O N R H).
  destruct (table_find (PStr new_state) alarm_name overrides) as [entry | ] eqn:E;
    [ | reflexivity ].
  apply table_find_some in E. destruct E as (state & name & I & S & ->).
  injection S as <-. unfold overrides in I. simpl in I.
  destruct C as [C | [C1 C2]];
    destruct I as [I | [I | []]]; injection I as <- <- <-;
    solve [ now elim C | now elim C1 | now elim C2 ].
Qed.

Lemma overrides_reach_one_alarm_witness :
  alarm_data (Sample.alarm_payload "cpu-high" "ALARM") =
    ([Log INFO ("CloudWatch Alarm: "
                  ++ Render.dumps (Sample.alarm_payload "cpu-high" "ALARM"))],
     Returned (Spec.alarm_default "cpu-high" "INSUFFICIENT_DATA" "ALARM"
                 "Threshold Crossed")).
Proof.
  apply (overrides_reach_one_alarm (Sample.alarm_fields "cpu-high" "ALARM")
           (PStr "cpu-high") (PStr "INSUFFICIENT_DATA") (PStr "Threshold Crossed")
           "ALARM" eq_refl eq_refl eq_refl eq_refl eq_refl).
  left. discriminate.
Defined.

(** The card of the alarm branch, when it returns one: the new state is a
    string and the card is an entry of the table or the computed one. *)
Lemma alarm_data_returns (message_json : pyval)
    (t : list effect) (cd : card_data) :
  alarm_data message_json = (t, Returned cd) ->
  exists alarm_name new_state,
    Py.getitem message_json "AlarmName" = Ok alarm_name
    /\ Py.getitem message_json "NewStateValue" = Ok (PStr new_state)
    /\ ((exists key, In (key, cd) overrides)
        \/ (colour cd = (if String.eqb (Str.lower new_state) "alarm"
                         then "Attention" else "Good")
            /\ title cd = (if String.eqb (Str.lower new_state) "alarm"
                           then "Red Alert - " else "Resolved - ")
                            ++ Render.str alarm_name)).
Proof.
  unfold alarm_data.
  destruct (Py.getitem message_json "AlarmName") as [a | e]; [ | discriminate ].
  rewrite bind_lift_ok.
  destruct (Py.getitem message_json "OldStateValue") as [b | e]; [ | discriminate ].
  rewrite bind_lift_ok.
  destruct (Py.getitem message_json "NewStateValue") as [c | e]; [ | discriminate ].
  rewrite bind_lift_ok.
  destruct (Py.getitem message_json "NewStateReason") as [d | e]; [ | discriminate ].
  rewrite bind_lift_ok, bind_logger_info.
  destruct c as [ | | | | new_state | | ]; try discriminate.
  simpl py_lower. rewrite bind_lift_ok. cbv zeta.
  unfold overrides_get.
  remember (table_find (PStr new_state) a overrides) as found eqn:E.
  change (Py.hashable (PStr new_state)) with true.
  destruct (Py.hashable a); cbn [andb]; [ | discriminate ].
  unfold lift. intros H. injection H as _ <-.
  exists a, new_state. split; [ reflexivity | split; [ reflexivity | ] ].
  symmetry in E. destruct found as [entry | ].
  - left. apply table_find_some in E.
    destruct E as (state & name & I & _). eauto.
  - right. simpl.
    destruct (String.eqb (Str.lower new_state) "alarm"); split; reflexivity.
Qed.

(** X7. Colour and title of an alarm card go together, overrides included:
    the colour is Attention or Good, and it is Attention exactly when the
    title begins with Red Alert and a dash. *)
Theorem alarm_title_matches_colour (message_json : pyval)
    (t : list effect) (cd : card_data) :
  alarm_data message_json = (t, Returned cd) ->
  (colour cd = "Attention" \/ colour cd = "Good")
  /\ (colour cd = "Attention" <-> String.prefix "Red Alert - " (title cd) = true).
Proof.
  intros H. apply alarm_data_returns in H.
  destruct H as (a & ns & _ & _ & [[key I] | [C T]]).
  - unfold overrides in I. simpl in I.
    destruct I as [I | [I | []]]; injection I as <- <-; simpl;
      (split; [ auto | split; intros E; try reflexivity; discriminate E ]).
  - rewrite C, T. destruct (String.eqb (Str.lower ns) "alarm"); simpl.
    + split; [ auto | split; intros _; [ | reflexivity ] ].
      now destruct (Render.str a).
    + split; [ auto | split; intros E; discriminate E ].
Qed.

Lemma alarm_title_matches_colour_witness :
  ("Good" = "Attention" \/ "Good" = "Good")
  /\ ("Good" = "Attention" <->
      String.prefix "Red Alert - " "Resolved - cpu-high" = true).
Proof.
  exact (alarm_title_matches_colour (Sample.alarm_payload "cpu-high" "OK") _
           {| colour := "Good";
              title := "Resolved - cpu-high";
              text := "**cpu-high** changed from **INSUFFICIENT_DATA** to **OK**"
                        ++ newline ++ newline ++ "Reason: Threshold Crossed" |}
           eq_refl).
Defined.

(** X8. A Message that decodes to a JSON string with AlarmName somewhere in
    it, or to a JSON list with the element AlarmName, passes the test of line
    81 and is taken for an alarm; reading the alarm name from it at line 82
    raises [TypeError], with nothing logged but the event and nothing sent. *)
Theorem alarm_name_in_text_or_list
    (HOOK_URL : string) (json_loads : string -> result pyval)
    (urlopen : request -> outcome unit)
    (event context sns_record : pyval) (message : string) (payload : pyval) :
  unwraps_to json_loads event sns_record message payload ->
  is_object payload = false ->
  Py.contains "AlarmName" payload = Ok true ->
  select_branch json_loads (PStr message) payload = Ok AlarmState
  /\ lambda_handler HOOK_URL json_loads urlopen event context =
     ([Log INFO ("Event: " ++ Render.dumps event)], Raised (Builtin TypeError)).
Proof.
  intros U O C.
  assert (D : json_loads message = Ok payload).
  { destruct U as (? & ? & _ & _ & _ & _ & D). exact D. }
  assert (S : select_branch json_loads (PStr message) payload = Ok AlarmState).
  { unfold select_branch, is_cloudwatch_alarm. simpl loads.
    rewrite C, D, C. reflexivity. }
  split; [ exact S | ].
  rewrite lambda_handler_halves,
    (card_payload_of_unwrapped json_loads event sns_record message payload U), S.
  rewrite bind_assoc. apply logged_then.
  rewrite bind_lift_ok. unfold alarm_data.
  destruct payload; try discriminate O; try discriminate C; reflexivity.
Qed.

Lemma alarm_name_in_text_or_list_witness :
  let message := Render.dumps (PStr "AlarmName cpu-high fired") in
  let event := Sample.event_of None message in
  select_branch Sample.loads (PStr message) (PStr "AlarmName cpu-high fired") =
    Ok AlarmState
  /\ lambda_handler Sample.hook Sample.loads Sample.delivered event
       Sample.context =
     ([Log INFO ("Event: " ++ Render.dumps event)], Raised (Builtin TypeError)).
Proof.
  cbv zeta.
  eapply (alarm_name_in_text_or_list Sample.hook Sample.loads Sample.delivered
            _ Sample.context _ _ (PStr "AlarmName cpu-high fired")).
  - do 2 eexists. repeat split; vm_compute; reflexivity.
  - reflexivity.
  - reflexivity.
Defined.

(** ** More on the audit branch *)

(** The audit formatter on an object, after its five reads. *)
Lemma parse_cloudtrail_event_object (detail : list (string * pyval)) :
  parse_cloudtrail_event (PDict detail) =
  (logger_info ("CloudTrail detail: " ++ Render.dumps (PDict detail)) ;;
   title <- lift (cloudtrail_title
                    (field_or "errorMessage" (PStr "No error message provided") detail)
                    (field_or "eventName" (PStr "UnknownEvent") detail)) ;;
   ret {| colour := "Attention";
          title := title;
          text := Render.dumps_indent 2
                    (PDict [ ("Subject", field_or "eventName" (PStr "UnknownEvent") detail);
                             ("Type", field_or "eventType" (PStr "Unknown") detail);
                             ("MessageId", field_or "eventID" (PStr "Unknown") detail);
                             ("Message",
                              field_or "errorMessage"
                                (PStr "No error message provided") detail);
                             ("Timestamp", field_or "eventTime" (PStr "Unknown") detail) ]) |}).
Proof.
  unfold parse_cloudtrail_event, Py.get, field_or.
  apply bind_ext. intros _. rewrite !bind_lift_ok.
  apply bind_ext. intros t. rewrite !bind_lift_ok. reflexivity.
Qed.

(** X10. For an errorMessage that is a string, the audit formatter returns a
    card exactly when the message has no colon or at least six of them, and
    raises [IndexError] exactly when it has between one and five. *)
Theorem audit_succeeds_by_colon_count (detail : list (string * pyval))
    (error_message : string) :
  Py.assoc "errorMessage" detail = Some (PStr error_message) ->
  let colons := count_char ":" error_message in
  let logged := [Log INFO ("CloudTrail detail: " ++ Render.dumps (PDict detail))] in
  (colons = 0 \/ 6 <= colons ->
   exists cd, parse_cloudtrail_event (PDict detail) = (logged, Returned cd))
  /\ (1 <= colons <= 5 ->
      parse_cloudtrail_event (PDict detail) =
        (logged, Raised (Builtin IndexError))).
Proof.
  intros E. cbv zeta.
  rewrite (parse_cloudtrail_event_string detail error_message E).
  rewrite cloudtrail_title_string, has_char_count.
  pose proof (split_length ":" error_message) as L.
  split.
  - intros [Z | G].
    + rewrite Z. simpl negb. cbv iota. rewrite bind_logger_info, bind_lift_ok.
      eexists. reflexivity.
    + destruct (count_char ":" error_message) as [ | n] eqn:C; [ lia | ].
      simpl negb. cbv iota.
      destruct (nth_error (Str.split ":" error_message) 6) as [segment | ] eqn:N.
      * rewrite bind_logger_info, bind_lift_ok. eexists. reflexivity.
      * apply nth_error_None in N. lia.
  - intros [G U].
    destruct (count_char ":" error_message) as [ | n] eqn:C; [ lia | ].
    simpl negb. cbv iota.
    destruct (nth_error (Str.split ":" error_message) 6) as [segment | ] eqn:N.
    + assert (6 < length (Str.split ":" error_message)); [ | lia ].
      apply nth_error_Some. congruence.
    + reflexivity.
Qed.

Lemma audit_succeeds_by_colon_count_witness :
  (exists cd,
      parse_cloudtrail_event
        (PDict [ ("errorMessage", PStr "a:b:c:d:e:f:token extra") ]) =
        ([Log INFO ("CloudTrail detail: "
                      ++ Render.dumps
                           (PDict [ ("errorMessage", PStr "a:b:c:d:e:f:token extra") ]))],
         Returned cd))
  /\ parse_cloudtrail_event (PDict [ ("errorMessage", PStr "a:b:c:d:e:f") ]) =
     ([Log INFO ("CloudTrail detail: "
                   ++ Render.dumps (PDict [ ("errorMessage", PStr "a:b:c:d:e:f") ]))],
      Raised (Builtin IndexError)).
Proof.
  split.
  - apply (proj1 (audit_succeeds_by_colon_count
                    [ ("errorMessage", PStr "a:b:c:d:e:f:token extra") ]
                    "a:b:c:d:e:f:token extra" eq_refl)).
    right. simpl. lia.
  - apply (proj2 (audit_succeeds_by_colon_count
                    [ ("errorMessage", PStr "a:b:c:d:e:f") ]
                    "a:b:c:d:e:f" eq_refl)).
    simpl. lia.
Defined.

(** X11. What the audit formatter does with values of the wrong type, each
    time right after logging the detail: a detail that is not an object
    raises [AttributeError] at its first [.get]; an errorMessage that is a
    number, a boolean or null raises [TypeError] at the colon test; an
    errorMessage that is a list or an object with the member or key colon
    raises [AttributeError] at [.split]. *)
Theorem audit_wrong_types :
  (forall detail,
      is_object detail = false ->
      parse_cloudtrail_event detail =
        ([Log INFO ("CloudTrail detail: " ++ Render.dumps detail)],
         Raised (Builtin AttributeError)))
  /\ (forall detail error_message,
         Py.assoc "errorMessage" detail = Some error_message ->
         let logged :=
           [Log INFO ("CloudTrail detail: " ++ Render.dumps (PDict detail))] in
         (is_scalar error_message = true ->
          parse_cloudtrail_event (PDict detail) =
            (logged, Raised (Builtin TypeError)))
         /\ (is_string error_message = false ->
             Py.contains ":" error_message = Ok true ->
             parse_cloudtrail_event (PDict detail) =
               (logged, Raised (Builtin AttributeError)))).
Proof.
  split.
  - intros detail O. unfold parse_cloudtrail_event. apply logged_then.
    destruct detail; try discriminate O; reflexivity.
  - intros detail error_message E. cbv zeta.
    rewrite parse_cloudtrail_event_object. unfold field_or. rewrite !E. split.
    + intros S. apply logged_then.
      destruct error_message; try discriminate S; reflexivity.
    + intros S C. apply logged_then. unfold cloudtrail_title. rewrite C.
      destruct error_message; try discriminate S; try discriminate C; reflexivity.
Qed.

(** ** The whole run *)

Lemma ending_bind_returned {A B : Type} (m : M A) (k : A -> M B) (b : B) :
  ending (bind m k) = Returned b ->
  exists a, ending m = Returned a /\ ending (k a) = Returned b.
Proof.
  rewrite ending_bind. destruct (ending m) as [a | f]; [ | discriminate ].
  intros H. exists a. auto.
Qed.

(** What the first half returns is the document of some card data. *)
Lemma card_payload_of_returns_card
    (json_loads : string -> result pyval) (event card_payload : pyval) :
  ending (card_payload_of json_loads event) = Returned card_payload ->
  exists data, card_payload = build_adaptive_card data.
Proof.
  unfold card_payload_of. intros H.
  repeat (apply ending_bind_returned in H; destruct H as (? & _ & H)).
  unfold ret, ending in H. simpl in H. injection H as <-. eauto.
Qed.

(** The first half logs the event before anything else. *)
Lemma card_payload_of_logs_event
    (json_loads : string -> result pyval) (event : pyval) :
  exists rest,
    trace (card_payload_of json_loads event) =
    Log INFO ("Event: " ++ Render.dumps event) :: rest.
Proof.
  unfold card_payload_of. rewrite bind_logger_info. eexists. reflexivity.
Qed.

(** A delivery is one call of [urlopen], then at most log lines. *)
Lemma deliver_shape (HOOK_URL : string) (urlopen : request -> outcome unit)
    (card_payload : pyval) :
  exists t,
    trace (deliver HOOK_URL urlopen card_payload) =
      Urlopen (request_of HOOK_URL card_payload) :: t
    /\ posts t = [].
Proof.
  unfold deliver, request_of.
  destruct (urlopen _) as [u | [e | code reason | reason]];
    eexists; split; reflexivity.
Qed.

(** X12. In every run, whatever the event, the decoder and the network do:
    the first effect is the log line for the event; at most one request is
    sent, and that one goes to the configured URL with the JSON content type
    and carries the document of a card; and the handler returns normally
    only after it has sent that one request. *)
Theorem run_shape
    (HOOK_URL : string) (json_loads : string -> result pyval)
    (urlopen : request -> outcome unit) (event context : pyval) :
  let run := lambda_handler HOOK_URL json_loads urlopen event context in
  (exists rest, trace run = Log INFO ("Event: " ++ Render.dumps event) :: rest)
  /\ (posts (trace run) = []
      \/ exists data,
           posts (trace run) = [request_of HOOK_URL (build_adaptive_card data)])
  /\ (ending run = Returned tt ->
      exists data,
        posts (trace run) = [request_of HOOK_URL (build_adaptive_card data)]).
Proof.
  cbv zeta. rewrite lambda_handler_halves.
  pose proof (posts_card_payload_of json_loads event) as P.
  pose proof (card_payload_of_returns_card json_loads event) as C.
  destruct (card_payload_of_logs_event json_loads event) as [rest L].
  rewrite trace_bind, ending_bind.
  destruct (ending (card_payload_of json_loads event)) as [card | f].
  - destruct (C card eq_refl) as [data ->].
    destruct (deliver_shape HOOK_URL urlopen (build_adaptive_card data))
      as (t & T & N).
    assert (S : posts (trace (card_payload_of json_loads event)
                         ++ trace (deliver HOOK_URL urlopen
                                     (build_adaptive_card data)))
                = [request_of HOOK_URL (build_adaptive_card data)]).
    { rewrite posts_app, P, T. simpl. now rewrite N. }
    split; [ rewrite L; eexists; reflexivity | ].
    split; [ right | intros _ ]; exists data; exact S.
  - split; [ rewrite L; eexists; reflexivity | ].
    split; [ left; exact P | discriminate ].
Qed.

Lemma handler_after_card
    (HOOK_URL : string) (json_loads : string -> result pyval)
    (urlopen : request -> outcome unit) (event context card_payload : pyval) :
  ending (card_payload_of json_loads event) = Returned card_payload ->
  lambda_handler HOOK_URL json_loads urlopen event context =
    ((trace (card_payload_of json_loads event)
        ++ trace (deliver HOOK_URL urlopen card_payload))%list,
     ending (deliver HOOK_URL urlopen card_payload)).
Proof.
  intros E. rewrite lambda_handler_halves.
  destruct (card_payload_of json_loads event) as [t [p | f]];
    unfold ending in E; simpl in E; [ | discriminate ].
  injection E as ->. unfold bind, trace, ending. simpl.
  now destruct (deliver HOOK_URL urlopen card_payload).
Qed.

(** X13. Once the card is built, the outcome of the one request decides the
    run: if [urlopen] returns, the handler logs that the message was posted
    and returns; if it raises a built-in exception, which neither handler of
    the [try] catches, that exception leaves the handler, after the one
    attempt and with nothing logged behind it. *)
Theorem delivery_success_and_escape
    (HOOK_URL : string) (json_loads : string -> result pyval)
    (urlopen : request -> outcome unit) (event context card_payload : pyval) :
  ending (card_payload_of json_loads event) = Returned card_payload ->
  let run := lambda_handler HOOK_URL json_loads urlopen event context in
  let req := request_of HOOK_URL card_payload in
  let before := trace (card_payload_of json_loads event) in
  (urlopen req = Returned tt ->
   run = ((before ++ [Urlopen req; Log INFO "Message posted successfully."])%list,
          Returned tt))
  /\ (forall e,
         urlopen req = Raised (Builtin e) ->
         run = ((before ++ [Urlopen req])%list, Raised (Builtin e))).
Proof.
  intros E. cbv zeta.
  rewrite (handler_after_card HOOK_URL json_loads urlopen event context
             card_payload E).
  unfold deliver, request_of. split.
  - intros ->. reflexivity.
  - intros e ->. reflexivity.
Qed.

Lemma delivery_success_and_escape_witness :
  let event := Sample.event_of None (Render.dumps Sample.other_payload) in
  exists card_payload,
    ending (card_payload_of Sample.loads event) = Returned card_payload
    /\ lambda_handler Sample.hook Sample.loads Sample.delivered event
         Sample.context =
       ((trace (card_payload_of Sample.loads event)
           ++ [Urlopen (request_of Sample.hook card_payload);
               Log INFO "Message posted successfully."])%list,
        Returned tt).
Proof.
  cbv zeta. eexists. split; [ vm_compute; reflexivity | ].
  apply (proj1 (delivery_success_and_escape Sample.hook Sample.loads
                  Sample.delivered
                  (Sample.event_of None (Render.dumps Sample.other_payload))
                  Sample.context _ eq_refl)).
  reflexivity.
Defined.

(** X14. The line logged for a failed delivery: for an HTTP error the status
    code in decimal and the reason, after the words Request failed; for a
    connection failure the reason, after the words Server connection failed;
    in both cases at level ERROR, as the last effect of a run that returns. *)
Theorem delivery_failure_log
    (HOOK_URL : string) (json_loads : string -> result pyval)
    (urlopen : request -> outcome unit) (event context card_payload : pyval) :
  ending (card_payload_of json_loads event) = Returned card_payload ->
  let run := lambda_handler HOOK_URL json_loads urlopen event context in
  let req := request_of HOOK_URL card_payload in
  let before := trace (card_payload_of json_loads event) in
  (forall code reason,
      urlopen req = Raised (HTTPError code reason) ->
      run = ((before
                ++ [Urlopen req;
                    Log ERROR ("Request failed: " ++ Str.of_Z code ++ " " ++ reason)])%list,
             Returned tt))
  /\ (forall reason,
         urlopen req = Raised (URLError reason) ->
         run = ((before
                   ++ [Urlopen req;
                       Log ERROR ("Server connection failed: " ++ reason)])%list,
                Returned tt)).
Proof.
  intros E. cbv zeta.
  rewrite (handler_after_card HOOK_URL json_loads urlopen event context
             card_payload E).
  unfold deliver, request_of. split.
  - intros code reason ->. reflexivity.
  - intros reason ->. reflexivity.
Qed.

Lemma delivery_failure_log_witness :
  let event := Sample.event_of None (Render.dumps Sample.other_payload) in
  exists card_payload,
    ending (card_payload_of Sample.loads event) = Returned card_payload
    /\ lambda_handler Sample.hook Sample.loads Sample.forbidden event
         Sample.context =
       ((trace (card_payload_of Sample.loads event)
           ++ [Urlopen (request_of Sample.hook card_payload);
               Log ERROR "Request failed: 403 Forbidden"])%list,
        Returned tt).
Proof.
  cbv zeta. eexists. split; [ vm_compute; reflexivity | ].
  apply (proj1 (delivery_failure_log Sample.hook Sample.loads
                  Sample.forbidden
                  (Sample.event_of None (Render.dumps Sample.other_payload))
                  Sample.context _ eq_refl) 403%Z "Forbidden").
  reflexivity.
Defined.

(** X15. The run on a Message that decodes to an object, by what the
    formatter of its branch does: if the formatter returns card data, the run
    is the event line, the lines of the formatter, and the delivery of that
    card; if the formatter raises, the run ends with its exception after the
    same lines and sends nothing. *)
Theorem run_follows_formatter
    (HOOK_URL : string) (json_loads : string -> result pyval)
    (urlopen : request -> outcome unit)
    (event context sns_record : pyval) (message : string)
    (payload : list (string * pyval)) :
  unwraps_to json_loads event sns_record message (PDict payload) ->
  let formatter := match Spec.classify payload with
                   | AlarmState => alarm_data (PDict payload)
                   | AuditEvent => audit_data (PDict payload)
                   | Generic => generic_data sns_record
                   end in
  let run := lambda_handler HOOK_URL json_loads urlopen event context in
  let logged := Log INFO ("Event: " ++ Render.dumps event) in
  (forall data,
      ending formatter = Returned data ->
      run = ((logged :: trace formatter
                ++ trace (deliver HOOK_URL urlopen (build_adaptive_card data)))%list,
             ending (deliver HOOK_URL urlopen (build_adaptive_card data))))
  /\ (forall f,
         ending formatter = Raised f ->
         run = (logged :: trace formatter, Raised f)
         /\ posts (trace run) = []).
Proof.
  intros U. cbv zeta.
  rewrite (classification_cases_of_handler HOOK_URL json_loads urlopen
             event context sns_record message payload U).
  assert (P : posts (trace match Spec.classify payload with
                           | AlarmState => alarm_data (PDict payload)
                           | AuditEvent => audit_data (PDict payload)
                           | Generic => generic_data sns_record
                           end) = []).
  { destruct (Spec.classify payload);
      [ apply posts_alarm_data | apply posts_audit_data | apply posts_generic_data ]. }
  destruct (match Spec.classify payload with
            | AlarmState => alarm_data (PDict payload)
            | AuditEvent => audit_data (PDict payload)
            | Generic => generic_data sns_record
            end) as [t [d | f0]]; unfold trace, ending in *; simpl fst in *;
    simpl snd in *; split.
  - intros data H. injection H as ->. apply logged_then. unfold bind.
    now destruct (deliver HOOK_URL urlopen (build_adaptive_card data)).
  - intros f H. discriminate H.
  - intros data H. discriminate H.
  - intros f H. injection H as ->. split; [ reflexivity | exact P ].
Qed.

Lemma run_follows_formatter_witness :
  let payload := Sample.alarm_payload "cpu-high" "ALARM" in
  let event := Sample.event_of None (Render.dumps payload) in
  exists data,
    ending (alarm_data payload) = Returned data
    /\ lambda_handler Sample.hook Sample.loads Sample.delivered event
         Sample.context =
       ((Log INFO ("Event: " ++ Render.dumps event) :: trace (alarm_data payload)
           ++ trace (deliver Sample.hook Sample.delivered
                       (build_adaptive_card data)))%list,
        ending (deliver Sample.hook Sample.delivered (build_adaptive_card data))).
Proof.
  cbv zeta.
  assert (U : unwraps_to Sample.loads
                (Sample.event_of None
                   (Render.dumps (Sample.alarm_payload "cpu-high" "ALARM")))
                (Sample.record_of None
                   (Render.dumps (Sample.alarm_payload "cpu-high" "ALARM")))
                (Render.dumps (Sample.alarm_payload "cpu-high" "ALARM"))
                (PDict (Sample.alarm_fields "cpu-high" "ALARM"))).
  { do 2 eexists. repeat split; vm_compute; reflexivity. }
  eexists. split; [ vm_compute; reflexivity | ].
  apply (proj1 (run_follows_formatter Sample.hook Sample.loads Sample.delivered
                  _ Sample.context _ _ _ U)).
  reflexivity.
Defined.

(** X16. A Message that decodes to anything but an object never gets a
    card: the handler raises right after the log line for the event and
    sends nothing.  The exception is [AttributeError], from [.get] at line
    110, for a string or a list in which AlarmName does not occur, and
    [TypeError] otherwise: from the membership test of line 81 for a number,
    a boolean or null, from the subscript of line 82 for a string or a list
    in which AlarmName occurs. *)
Theorem non_object_payload_raises
    (HOOK_URL : string) (json_loads : string -> result pyval)
    (urlopen : request -> outcome unit)
    (event context sns_record : pyval) (message : string) (payload : pyval) :
  unwraps_to json_loads event sns_record message payload ->
  is_object payload = false ->
  lambda_handler HOOK_URL json_loads urlopen event context =
    ([Log INFO ("Event: " ++ Render.dumps event)],
     Raised (Builtin match Py.contains "AlarmName" payload with
                     | Ok false => AttributeError
                     | _ => TypeError
                     end)).
Proof.
  intros U O.
  assert (D : json_loads message = Ok payload).
  { destruct U as (? & ? & _ & _ & _ & _ & D). exact D. }
  rewrite lambda_handler_halves,
    (card_payload_of_unwrapped json_loads event sns_record message payload U).
  rewrite bind_assoc. apply logged_then.
  unfold select_branch, is_cloudwatch_alarm. simpl loads. rewrite D.
  destruct payload; try discriminate O; try reflexivity.
  - simpl Py.contains. destruct (Str.contains "AlarmName" s); reflexivity.
  - simpl Py.contains.
    destruct (existsb (Py.is_str "AlarmName") items); reflexivity.
Qed.

Lemma non_object_payload_raises_witness :
  let event := Sample.event_of None "[1, 2]" in
  lambda_handler Sample.hook Sample.loads Sample.delivered event Sample.context =
    ([Log INFO ("Event: " ++ Render.dumps event)],
     Raised (Builtin AttributeError)).
Proof.
  cbv zeta.
  eapply (non_object_payload_raises Sample.hook Sample.loads Sample.delivered
            _ Sample.context _ _ (PList [PInt 1; PInt 2])).
  - do 2 eexists. repeat split; vm_compute; reflexivity.
  - reflexivity.
Defined.

(** ** The body of the request reads back *)

Lemma string_app_assoc (a b c : string) : (a ++ b) ++ c = a ++ (b ++ c).
Proof. induction a; simpl; congruence. Qed.

(** The decoder undoes the escaping of one character. *)
Lemma scan_char (c : ascii) (tail : string) :
  Json.scanstring (Render.json_char c ++ tail) = Json.cons_char c (Json.scanstring tail).
Proof. destruct c as [[] [] [] [] [] [] [] []]; reflexivity. Qed.

(** A string literal reads back as the string it was written from. *)
Lemma scan_str (s rest : string) :
  Json.scanstring (Render.json_chars s ++ String "034" rest) = Some (s, rest).
Proof.
  induction s as [ | c r IH]; [ reflexivity | ].
  cbn [Render.json_chars]. rewrite string_app_assoc, scan_char, IH. reflexivity.
Qed.

Section RoundTrip.

Variable float_repr : string -> string.

Lemma value_string fuel s rest :
  Json.value float_repr (S fuel) (Render.json_str s ++ rest) = Some (PStr s, rest).
Proof.
  unfold Render.json_str. rewrite string_app_assoc.
  cbn [append Json.value].
  change (Ascii.eqb "034" "034") with true. cbv iota.
  cbn [append]. rewrite scan_str. reflexivity.
Qed.

Lemma value_scalar_none fuel rest :
  Json.value float_repr (S fuel) ("null" ++ rest) = Some (PNone, rest).
Proof. reflexivity. Qed.

Lemma value_true fuel rest :
  Json.value float_repr (S fuel) ("true" ++ rest) = Some (PBool true, rest).
Proof. reflexivity. Qed.

Lemma value_false fuel rest :
  Json.value float_repr (S fuel) ("false" ++ rest) = Some (PBool false, rest).
Proof. reflexivity. Qed.

Lemma encode_head lvl v :
  plain v = true ->
  exists c s, Render.encode None lvl v = String c s /\ opener c = true.
Proof.
  destruct v as [ | [ | ] | | | s | [ | x l] | [ | [k x] d] ]; try discriminate;
    intros _; cbn; eexists; eexists; split; try reflexivity; reflexivity.
Qed.

Lemma skip_ws_opener c s : opener c = true -> Json.skip_ws (String c s) = String c s.
Proof. destruct c as [[] [] [] [] [] [] [] []]; try discriminate; reflexivity. Qed.

Lemma skip_ws_encode lvl v rest :
  plain v = true ->
  Json.skip_ws (Render.encode None lvl v ++ rest) = Render.encode None lvl v ++ rest.
Proof.
  intros P. destruct (encode_head lvl v P) as (c & s & -> & O).
  cbn [append]. now apply skip_ws_opener.
Qed.

Lemma value_list_open fuel c s :
  opener c = true ->
  Json.value float_repr (S fuel) (String "[" (String c s)) =
  Json.elements float_repr fuel (String c s) [].
Proof. destruct c as [[] [] [] [] [] [] [] []]; try discriminate; reflexivity. Qed.

Lemma elements_more fuel s acc v r :
  Json.value float_repr fuel s = Some (v, ", " ++ r) ->
  Json.elements float_repr (S fuel) s acc =
  Json.elements float_repr fuel (Json.skip_ws r) (v :: acc).
Proof. intros H. cbn [Json.elements]. rewrite H. reflexivity. Qed.

Lemma elements_last fuel s acc v rest :
  Json.value float_repr fuel s = Some (v, "]" ++ rest) ->
  Json.elements float_repr (S fuel) s acc = Some (PList (rev (v :: acc)), rest).
Proof. intros H. cbn [Json.elements]. rewrite H. reflexivity. Qed.

Lemma value_dict_open fuel s :
  Json.value float_repr (S fuel) (String "{" (String "034" s)) =
  Json.members float_repr fuel (String "034" s) [].
Proof. reflexivity. Qed.

Lemma members_more fuel k body acc v r :
  Json.skip_ws body = body ->
  Json.value float_repr fuel body = Some (v, ", " ++ r) ->
  Json.members float_repr (S fuel) (Render.json_str k ++ ": " ++ body) acc =
  Json.members float_repr fuel (Json.skip_ws r) ((k, v) :: acc).
Proof.
  intros W H. unfold Render.json_str. rewrite string_app_assoc.
  cbn [append Json.members]. rewrite scan_str.
  change (Json.skip_ws (String ":" (String " " body)))
    with (String ":" (String " " body)).
  cbv iota.
  change (Json.skip_ws (String " " body)) with (Json.skip_ws body).
  rewrite W, H. reflexivity.
Qed.

Lemma members_last fuel k body acc v rest :
  Json.skip_ws body = body ->
  Json.value float_repr fuel body = Some (v, "}" ++ rest) ->
  Json.members float_repr (S fuel) (Render.json_str k ++ ": " ++ body) acc =
  Some (PDict (Json.dict_of (rev ((k, v) :: acc))), rest).
Proof.
  intros W H. unfold Render.json_str. rewrite string_app_assoc.
  cbn [append Json.members]. rewrite scan_str.
  change (Json.skip_ws (String ":" (String " " body)))
    with (String ":" (String " " body)).
  cbv iota.
  change (Json.skip_ws (String " " body)) with (Json.skip_ws body).
  rewrite W, H. reflexivity.
Qed.

Lemma encode_list lvl x l :
  Render.encode None lvl (PList (x :: l)) =
  String "[" (Str.join ", " (map (Render.encode None (S lvl)) (x :: l)) ++ "]").
Proof. reflexivity. Qed.

Lemma encode_dict lvl kv d :
  Render.encode None lvl (PDict (kv :: d)) =
  String "{" (Str.join ", " (map (member_text (S lvl)) (kv :: d)) ++ "}").
Proof. reflexivity. Qed.

Lemma join_cons2 sep (x y : string) l :
  Str.join sep (x :: y :: l) = x ++ sep ++ Str.join sep (y :: l).
Proof. reflexivity. Qed.

Lemma join_elements_head lvl x l T :
  plain x = true ->
  exists c s,
    Str.join ", " (map (Render.encode None lvl) (x :: l)) ++ T = String c s
    /\ opener c = true.
Proof.
  intros P. destruct (encode_head lvl x P) as (c & s & E & O).
  destruct l as [ | y l]; cbn [map]; [ cbn [Str.join] | rewrite join_cons2 ];
    rewrite E; cbn [append]; eauto.
Qed.

Lemma join_members_head lvl kv d T :
  exists s, Str.join ", " (map (member_text lvl) (kv :: d)) ++ T = String "034" s.
Proof.
  destruct kv as [k x].
  destruct d as [ | y d]; cbn [map]; [ cbn [Str.join] | rewrite join_cons2 ];
    unfold member_text at 1, Render.json_str; cbn [append]; eauto.
Qed.

Lemma elements_join n (IH : forall m, m < n -> reads_back float_repr m) :
  forall l, l <> [] ->
  forall g acc lvl rest,
    g < n -> forallb plain l = true -> sizes l <= g ->
    Json.elements float_repr g
      (Str.join ", " (map (Render.encode None lvl) l) ++ "]" ++ rest) acc =
    Some (PList (rev acc ++ l), rest).
Proof.
  induction l as [ | x l IHl]; intros N g acc lvl rest G P S; [ now elim N | ].
  cbn [forallb] in P. apply andb_true_iff in P. destruct P as [Px Pl].
  unfold sizes in S. cbn [fold_right] in S. fold (sizes l) in S.
  destruct g as [ | g]; [ lia | ].
  destruct l as [ | y l].
  - cbn [map Str.join].
    rewrite (elements_last g _ acc x rest).
    + cbn [rev]. reflexivity.
    + apply IH; [ lia | exact Px | lia ].
  - cbn [map]. rewrite join_cons2, !string_app_assoc.
    rewrite (elements_more g _ acc x
               (Str.join ", " (map (Render.encode None lvl) (y :: l)) ++ "]" ++ rest)).
    + cbn [forallb] in Pl. 
      destruct (join_elements_head lvl y l ("]" ++ rest)) as (c & s & E & O).
      { apply andb_true_iff in Pl. tauto. }
      rewrite E, (skip_ws_opener c s O), <- E.
      rewrite (IHl ltac:(discriminate) g (x :: acc) lvl rest); [ | lia | exact Pl | lia ].
      cbn [rev]. now rewrite <- app_assoc.
    + apply IH; [ lia | exact Px | lia ].
Qed.

Lemma members_join n (IH : forall m, m < n -> reads_back float_repr m) :
  forall d, d <> [] ->
  forall g acc lvl rest,
    g < n ->
    forallb (fun kv : string * pyval => plain (snd kv)) d = true ->
    member_sizes d <= g ->
    Json.members float_repr g
      (Str.join ", " (map (member_text lvl) d) ++ "}" ++ rest) acc =
    Some (PDict (Json.dict_of (rev acc ++ d)), rest).
Proof.
  induction d as [ | [k x] d IHd]; intros N g acc lvl rest G P S; [ now elim N | ].
  cbn [forallb snd] in P. apply andb_true_iff in P. destruct P as [Px Pd].
  unfold member_sizes in S. cbn [fold_right snd] in S. fold (member_sizes d) in S.
  destruct g as [ | g]; [ lia | ].
  destruct d as [ | y d].
  - cbn [map Str.join]. unfold member_text. rewrite !string_app_assoc.
    rewrite (members_last g k _ acc x rest).
    + cbn [rev]. reflexivity.
    + now apply skip_ws_encode.
    + apply IH; [ lia | exact Px | lia ].
  - cbn [map]. rewrite join_cons2. unfold member_text at 1. rewrite !string_app_assoc.
    rewrite (members_more g k _ acc x
               (Str.join ", " (map (member_text lvl) (y :: d)) ++ "}" ++ rest)).
    + destruct (join_members_head lvl y d ("}" ++ rest)) as (s & E).
      rewrite E, (skip_ws_opener "034" s eq_refl), <- E.
      rewrite (IHd ltac:(discriminate) g ((k, x) :: acc) lvl rest);
        [ | lia | exact Pd | lia ].
      cbn [rev]. now rewrite <- app_assoc.
    + now apply skip_ws_encode.
    + apply IH; [ lia | exact Px | lia ].
Qed.

Lemma assoc_app_none {A} k (a b : list (string * A)) :
  Py.assoc k (a ++ b) = None <-> Py.assoc k a = None /\ Py.assoc k b = None.
Proof.
  induction a as [ | [k' v] a IHa]; cbn [app Py.assoc]; [ tauto | ].
  destruct (String.eqb k k'); [ | exact IHa ].
  split; [ discriminate | intros [H _]; discriminate H ].
Qed.

Lemma dict_set_absent k v d :
  Py.assoc k d = None -> Json.dict_set k v d = (d ++ [(k, v)])%list.
Proof.
  induction d as [ | [k' v'] d IHd]; cbn [Json.dict_set Py.assoc app]; [ reflexivity | ].
  destruct (String.eqb k k'); [ discriminate | ].
  intros H. now rewrite (IHd H).
Qed.

Lemma distinct_keys_app_absent k v (a b : list (string * pyval)) :
  distinct_keys (a ++ (k, v) :: b) = true -> Py.assoc k a = None.
Proof.
  induction a as [ | [k' v'] a IHa]; cbn [app distinct_keys Py.assoc]; [ reflexivity | ].
  destruct (Py.assoc k' (a ++ (k, v) :: b)) eqn:E; [ discriminate | ].
  intros D. apply assoc_app_none in E. destruct E as [_ E].
  cbn [Py.assoc] in E. rewrite String.eqb_sym.
  destruct (String.eqb k' k); [ discriminate | ]. now apply IHa.
Qed.

Lemma fold_dict_set (l init : list (string * pyval)) :
  distinct_keys (init ++ l) = true ->
  fold_left (fun d (kv : string * pyval) => Json.dict_set (fst kv) (snd kv) d) l init =
  (init ++ l)%list.
Proof.
  revert init. induction l as [ | [k v] l IHl]; intros init D; cbn [fold_left fst snd].
  - now rewrite app_nil_r.
  - rewrite (dict_set_absent k v init (distinct_keys_app_absent k v init l D)).
    rewrite IHl; rewrite <- app_assoc; [ reflexivity | exact D ].
Qed.

(** Building a dict from pairs with distinct keys keeps the pairs. *)
Lemma dict_of_distinct d : distinct_keys d = true -> Json.dict_of d = d.
Proof. intros D. unfold Json.dict_of. now rewrite fold_dict_set. Qed.

(** The text of a plain value reads back, by induction on the fuel. *)
Lemma value_encode : forall n, reads_back float_repr n.
Proof.
  induction n as [n IH] using lt_wf_ind.
  intros lvl v rest P S.
  destruct n as [ | f]; [ destruct v; cbn in S; lia | ].
  destruct v as [ | [ | ] | | | s | [ | x l] | [ | kv d] ]; try discriminate P.
  - apply value_scalar_none.
  - apply value_true.
  - apply value_false.
  - apply value_string.
  - reflexivity.
  - rewrite encode_list. cbn [append]. rewrite string_app_assoc.
    cbn [plain] in P.
    destruct (join_elements_head (Datatypes.S lvl) x l ("]" ++ rest)) as (c & s & E & O).
    { cbn [forallb] in P. apply andb_true_iff in P. tauto. }
    rewrite E, (value_list_open f c s O), <- E.
    rewrite (elements_join (Datatypes.S f) IH (x :: l) ltac:(discriminate) f []
               (Datatypes.S lvl) rest); [ reflexivity | lia | exact P | ].
    cbn [size] in S. fold (sizes (x :: l)) in S. lia.
  - reflexivity.
  - rewrite encode_dict. cbn [append]. rewrite string_app_assoc.
    cbn [plain] in P. apply andb_true_iff in P. destruct P as [P D].
    destruct (join_members_head (Datatypes.S lvl) kv d ("}" ++ rest)) as (s & E).
    rewrite E, (value_dict_open f s), <- E.
    rewrite (members_join (Datatypes.S f) IH (kv :: d) ltac:(discriminate) f []
               (Datatypes.S lvl) rest); [ | lia | exact P | ].
    + cbn [rev app]. now rewrite (dict_of_distinct _ D).
    + cbn [size] in S. fold (member_sizes (kv :: d)) in S. lia.
Qed.

End RoundTrip.

Lemma append_empty (s : string) : s ++ "" = s.
Proof. induction s; simpl; congruence. Qed.

(** A plain value reads back from its text, given fuel for its size. *)
Lemma loads_dumps (float_repr : string -> string) (v : pyval) :
  plain v = true ->
  size v <= 2 * String.length (Render.dumps v) + 2 ->
  Json.loads float_repr (Render.dumps v) = Ok v.
Proof.
  intros P S. unfold Json.loads, Render.dumps in *.
  rewrite <- (append_empty (Render.encode None 0 v)) at 2.
  rewrite (skip_ws_encode 0 v "" P).
  now rewrite (value_encode float_repr _ 0 v "" P S).
Qed.

(** X17. The body of the request built for a card is JSON text that decodes
    back to the card document itself, whatever characters the title, the text
    and the colour hold: quotes, backslashes, control characters and
    non-ASCII characters in them are escaped by [json.dumps] and cannot
    change the shape of the document. *)
Theorem card_body_decodes (float_repr : string -> string) (HOOK_URL : string)
    (card : card_data) :
  Json.loads float_repr (data (request_of HOOK_URL (build_adaptive_card card))) =
  Ok (build_adaptive_card card).
Proof.
  unfold request_of, data. apply loads_dumps; [ reflexivity | ].
  apply Nat.leb_le. vm_compute. reflexivity.
Qed.

(** ** Delivery failures *)





(** ** The texts of the cards *)

Lemma json_char_safe (c : ascii) :
  Text.safe_char c = true -> Render.json_char c = String c EmptyString.
Proof. destruct c as [[] [] [] [] [] [] [] []]; try discriminate; reflexivity. Qed.

(** A string of characters that need no escape is written as it is. *)
Lemma json_chars_safe (s : string) :
  Text.safe s = true -> Render.json_chars s = s.
Proof.
  induction s as [ | c r IH]; [ reflexivity | ].
  cbn [Text.safe Render.json_chars]. intros H.
  apply andb_true_iff in H. destruct H as [C R].
  now rewrite (json_char_safe c C), (IH R).
Qed.

Lemma encode_string_safe (lvl : nat) (s : string) :
  Text.safe s = true ->
  Render.encode (Some 2) lvl (PStr s) = Text.quoted s.
Proof.
  intros H. cbn [Render.encode]. unfold Render.json_str, Text.quoted.
  now rewrite (json_chars_safe s H).
Qed.

(** A field that holds is written as the page shows it. *)
Lemma encode_field_holds (r : list (string * pyval)) (k : string)
    (o : option string) :
  holds r k o ->
  Render.encode (Some 2) 1 (field k r) = Text.value_text o.
Proof.
  unfold holds, field. destruct o as [s | ].
  - intros [-> S]. now apply encode_string_safe.
  - intros ->. reflexivity.
Qed.


Lemma str_field_or_holds (r : list (string * pyval)) (k dflt : string)
    (o : option string) :
  holds r k o ->
  Render.str (field_or k (PStr dflt) r) = Text.or_default o dflt.
Proof.
  unfold holds, field_or. destruct o as [s | ].
  - intros [-> _]. reflexivity.
  - intros ->. reflexivity.
Qed.

(** The generic formatter on any record object. *)
Lemma generic_data_object (record : list (string * pyval)) :
  generic_data (PDict record) =
    ([Log INFO "Fallback SNS message"],
     Returned
       {| colour := "Warning";
          title := "Alert - "
                     ++ Render.str (field_or "Subject" (PStr "No Subject") record);
          text :=
            "{" ++ Text.nl ++ "  "
              ++ Text.quoted "Subject" ++ ": "
              ++ Render.encode (Some 2) 1 (field "Subject" record)
              ++ "," ++ Text.nl ++ "  "
              ++ Text.quoted "Type" ++ ": "
              ++ Render.encode (Some 2) 1 (field "Type" record)
              ++ "," ++ Text.nl ++ "  "
              ++ Text.quoted "MessageId" ++ ": "
              ++ Render.encode (Some 2) 1 (field "MessageId" record)
              ++ "," ++ Text.nl ++ "  "
              ++ Text.quoted "TopicArn" ++ ": "
              ++ Render.encode (Some 2) 1 (field "TopicArn" record)
              ++ "," ++ Text.nl ++ "  "
              ++ Text.quoted "Message" ++ ": "
              ++ Render.encode (Some 2) 1 (field "Message" record)
              ++ "," ++ Text.nl ++ "  "
              ++ Text.quoted "Timestamp" ++ ": "
              ++ Render.encode (Some 2) 1 (field "Timestamp" record)
              ++ Text.nl ++ "}" |}).
Proof.
  unfold generic_data. rewrite bind_logger_info. unfold Py.get.
  rewrite !bind_lift_ok. unfold ret, trace, ending, fst, snd.
  f_equal. f_equal. f_equal.
  unfold Render.dumps_indent, field.
  cbn [Render.encode Render.newline_indent Render.item_separator map Str.join
       Str.repeat_str Nat.mul Nat.add].
  generalize (Render.encode (Some 2) 1
                match Py.assoc "Subject" record with Some v => v | None => PNone end).
  generalize (Render.encode (Some 2) 1
                match Py.assoc "Type" record with Some v => v | None => PNone end).
  generalize (Render.encode (Some 2) 1
                match Py.assoc "MessageId" record with Some v => v | None => PNone end).
  generalize (Render.encode (Some 2) 1
                match Py.assoc "TopicArn" record with Some v => v | None => PNone end).
  generalize (Render.encode (Some 2) 1
                match Py.assoc "Message" record with Some v => v | None => PNone end).
  generalize (Render.encode (Some 2) 1
                match Py.assoc "Timestamp" record with Some v => v | None => PNone end).
  intros v6 v5 v4 v3 v2 v1.
  unfold Text.quoted, Text.nl. cbn.
  repeat (rewrite !string_app_assoc; cbn [append]).
  reflexivity.
Qed.

(** C9. For every record the generic branch formats, the card has colour
    Warning, the title is Alert, a dash and the subject, with No Subject for
    a record without the field, and the text is the object with the keys
    Subject, Type, MessageId, TopicArn, Message and Timestamp in that order,
    one member per line behind two spaces, each value the record's own and
    null for a field the record does not have.  Where the six fields are
    absent or are strings that need no escape, the title and the whole text
    are as [Text.generic_text] spells them; for every record, each value is
    the JSON text of the record's own value, and a string value is written as
    a literal that reads back as the string itself. *)
Theorem generic_card (record : list (string * pyval))
    (subject type message_id topic_arn message timestamp : option string) :
  holds record "Subject" subject ->
  holds record "Type" type ->
  holds record "MessageId" message_id ->
  holds record "TopicArn" topic_arn ->
  holds record "Message" message ->
  holds record "Timestamp" timestamp ->
  generic_data (PDict record) =
    ([Log INFO "Fallback SNS message"],
     Returned
       {| colour := "Warning";
          title := "Alert - " ++ Text.or_default subject "No Subject";
          text := Text.generic_text subject type message_id topic_arn
                    message timestamp |})
  /\ (forall any : list (string * pyval),
         generic_data (PDict any) =
           ([Log INFO "Fallback SNS message"],
            Returned
              {| colour := "Warning";
                 title := "Alert - "
                            ++ Render.str (field_or "Subject" (PStr "No Subject") any);
                 text :=
                   "{" ++ Text.nl ++ "  "
                     ++ Text.quoted "Subject" ++ ": "
                     ++ Render.encode (Some 2) 1 (field "Subject" any)
                     ++ "," ++ Text.nl ++ "  "
                     ++ Text.quoted "Type" ++ ": "
                     ++ Render.encode (Some 2) 1 (field "Type" any)
                     ++ "," ++ Text.nl ++ "  "
                     ++ Text.quoted "MessageId" ++ ": "
                     ++ Render.encode (Some 2) 1 (field "MessageId" any)
                     ++ "," ++ Text.nl ++ "  "
                     ++ Text.quoted "TopicArn" ++ ": "
                     ++ Render.encode (Some 2) 1 (field "TopicArn" any)
                     ++ "," ++ Text.nl ++ "  "
                     ++ Text.quoted "Message" ++ ": "
                     ++ Render.encode (Some 2) 1 (field "Message" any)
                     ++ "," ++ Text.nl ++ "  "
                     ++ Text.quoted "Timestamp" ++ ": "
                     ++ Render.encode (Some 2) 1 (field "Timestamp" any)
                     ++ Text.nl ++ "}" |}))
  /\ (forall (float_repr : string -> string) (fuel : nat) (s rest : string),
         Json.value float_repr (S fuel)
           (Render.encode (Some 2) 1 (PStr s) ++ rest) = Some (PStr s, rest))
  /\ (forall s, Render.str (PStr s) = s)
  /\ Render.encode (Some 2) 1 PNone = "null".
Proof.
  intros H1 H2 H3 H4 H5 H6.
  split; [ | split; [ exact generic_data_object | split; [ | split ] ] ].
  - rewrite generic_data_object.
    rewrite (str_field_or_holds record "Subject" "No Subject" subject H1).
    rewrite (encode_field_holds record "Subject" subject H1),
      (encode_field_holds record "Type" type H2),
      (encode_field_holds record "MessageId" message_id H3),
      (encode_field_holds record "TopicArn" topic_arn H4),
      (encode_field_holds record "Message" message H5),
      (encode_field_holds record "Timestamp" timestamp H6).
    f_equal. f_equal. f_equal.
    unfold Text.generic_text.
    generalize (Text.value_text subject) (Text.value_text type)
      (Text.value_text message_id) (Text.value_text topic_arn)
      (Text.value_text message) (Text.value_text timestamp).
    intros v1 v2 v3 v4 v5 v6.
    unfold Text.quoted, Text.nl. cbn [Text.lines append].
    repeat (rewrite !string_app_assoc; cbn [append]).
    reflexivity.
  - intros float_repr fuel s rest. exact (value_string float_repr fuel s rest).
  - reflexivity.
  - reflexivity.
Qed.

Lemma generic_card_witness :
  generic_data (Sample.record_of (Some (PStr "Disk almost full"))
                  "plain text alert") =
    ([Log INFO "Fallback SNS message"],
     Returned
       {| colour := "Warning";
          title := "Alert - Disk almost full";
          text := Text.generic_text (Some "Disk almost full")
                    (Some "Notification")
                    (Some "95df01b4-ee98-5cb9-9903-4c221d41eb5e")
                    (Some "arn:aws:sns:eu-west-1:123456789012:alerts")
                    (Some "plain text alert")
                    (Some "2024-01-01T00:00:00.000Z") |})
  /\ generic_data (PDict [ ("Message", PStr "plain text alert") ]) =
    ([Log INFO "Fallback SNS message"],
     Returned
       {| colour := "Warning";
          title := "Alert - No Subject";
          text := Text.generic_text None None None None
                    (Some "plain text alert") None |}).
Proof.
  split.
  - apply (generic_card
             [ ("Subject", PStr "Disk almost full");
               ("Type", PStr "Notification");
               ("MessageId", PStr "95df01b4-ee98-5cb9-9903-4c221d41eb5e");
               ("TopicArn", PStr "arn:aws:sns:eu-west-1:123456789012:alerts");
               ("Message", PStr "plain text alert");
               ("Timestamp", PStr "2024-01-01T00:00:00.000Z") ]
             (Some "Disk almost full") (Some "Notification")
             (Some "95df01b4-ee98-5cb9-9903-4c221d41eb5e")
             (Some "arn:aws:sns:eu-west-1:123456789012:alerts")
             (Some "plain text alert") (Some "2024-01-01T00:00:00.000Z"));
      split; reflexivity.
  - apply (generic_card [ ("Message", PStr "plain text alert") ]
             None None None None (Some "plain text alert") None);
      try reflexivity.
    split; reflexivity.
Defined.

(** The page for a record without Subject, character by character. *)
Example generic_text_on_the_page :
  Text.generic_text None (Some "Notification") None None (Some "plain") None =
  "{" ++ Text.nl
    ++ "  " ++ Text.quoted "Subject" ++ ": null," ++ Text.nl
    ++ "  " ++ Text.quoted "Type" ++ ": " ++ Text.quoted "Notification" ++ ","
    ++ Text.nl
    ++ "  " ++ Text.quoted "MessageId" ++ ": null," ++ Text.nl
    ++ "  " ++ Text.quoted "TopicArn" ++ ": null," ++ Text.nl
    ++ "  " ++ Text.quoted "Message" ++ ": " ++ Text.quoted "plain" ++ ","
    ++ Text.nl
    ++ "  " ++ Text.quoted "Timestamp" ++ ": null" ++ Text.nl
    ++ "}".
Proof. reflexivity. Qed.



(** The page of an audit card without event type, id and time. *)
Example audit_text_on_the_page :
  Text.audit_text (Some "CreateUser") None None (Some "access denied") None =
  "{" ++ Text.nl
    ++ "  " ++ Text.quoted "Subject" ++ ": " ++ Text.quoted "CreateUser" ++ ","
    ++ Text.nl
    ++ "  " ++ Text.quoted "Type" ++ ": " ++ Text.quoted "Unknown" ++ ","
    ++ Text.nl
    ++ "  " ++ Text.quoted "MessageId" ++ ": " ++ Text.quoted "Unknown" ++ ","
    ++ Text.nl
    ++ "  " ++ Text.quoted "Message" ++ ": " ++ Text.quoted "access denied" ++ ","
    ++ Text.nl
    ++ "  " ++ Text.quoted "Timestamp" ++ ": " ++ Text.quoted "Unknown"
    ++ Text.nl
    ++ "}".
Proof. reflexivity. Qed.

(** ** The unguarded index of the audit title *)

(** C6, as stated, fails on the message denied: no role.  The claim has the
    number of segments checked and a format error raised in place of an
    index out of range; the code makes no such check: the message has two
    segments, the colon test of line 28 passes, the index 6 is out of range
    for the list of segments, and the exception that comes out of the title,
    of the formatter and of the handler is that [IndexError]. *)
Lemma short_message_indexes_out_of_range :
  let detail := PDict [ ("eventName", PStr "E1");
                        ("errorMessage", PStr "denied: no role") ] in
  let run := lambda_handler Sample.hook Sample.loads Sample.delivered
               (Sample.event_of None
                  (Render.dumps
                     (Sample.audit_payload
                        [ ("eventName", PStr "E1");
                          ("errorMessage", PStr "denied: no role") ])))
               Sample.context in
  Py.contains ":" (PStr "denied: no role") = Ok true
  /\ Str.split ":" "denied: no role" = ["denied"; " no role"]
  /\ py_index (Str.split ":" "denied: no role") 6 = Raise IndexError
  /\ cloudtrail_title (PStr "denied: no role") (PStr "E1") = Raise IndexError
  /\ ending (parse_cloudtrail_event detail) = Raised (Builtin IndexError)
  /\ ending run = Raised (Builtin IndexError)
  /\ posts (trace run) = [].
Proof. vm_compute. repeat split. Qed.
